(** * Streaming ingestion and clip-aggregation pipeline

    A shallow embedding of the video-caption WebSocket session of
    [backend/app/api/routes/video_caption.py] and of the classes it drives:
    [ClipEncoder] ([app/core/clip_encoder.py]), [Mem0Manager]
    ([app/core/mem0_client.py]), [MoondreamProcessor]
    ([app/core/moondream_processor.py]) and [S3Manager]
    ([app/core/s3_utils.py]).

    Conventions of the embedding.
    - Python [int] is [Z]; [str] is [string]; [bytes] is [list byte];
      a [dict] decoded from JSON is a [gmap string json].
    - A [datetime] is the number of microseconds since the epoch ([Z]):
      [datetime] has microsecond resolution, and the only arithmetic the
      code does on it is [(t1 - t0).total_seconds() >= clip_duration], which
      is compared here in microseconds.
    - An [asyncio.Queue] is a list, head first; the poison pill [None]
      is [None] of [option].
    - The closure variables of [video_caption_endpoint] and the module
      level singletons it uses form the record [Session]; every coroutine
      is a function on [Session], one call per loop iteration.
    - Every effect on the outside world (log record, WebSocket send,
      Deepgram send, S3 put, database insert, Mem0 [client.add]) is
      appended to the [trace] of the session, in program order.
    - What an outside collaborator answers (does the upload raise, what
      does the vision model say, what time is it) is an explicit argument
      of the step that asks.  The pure library functions
      ([base64.b64decode], [cv2.imdecode], [PIL.Image.open]) are the
      fields of the class [Codec]. *)

From stdpp Require Import base strings list gmap pretty.
From Stdlib Require Import ZArith Lia Ascii.

Local Open Scope string_scope.
Local Open Scope list_scope.
Local Open Scope Z_scope.

(** ** Values shared by all modules *)

Definition bytes := list Byte.byte.

(** A decoded image (the numpy array [cv2.imdecode] returns), seen through
    what the program observes of it: [frame.shape[:2]] and the bytes
    [cv2.imencode(".jpg", frame, [IMWRITE_JPEG_QUALITY, 80])] produces. *)
Record Frame := {
  frame_height : Z;
  frame_width : Z;
  frame_jpeg80 : bytes;
}.

(** JSON values, as [json.loads] builds them. *)
#[warnings="-register-all"]
Inductive json :=
| JNull
| JBool (b : bool)
| JNum (z : Z)
| JStr (s : string)
| JArr (l : list json)
| JObj (m : gmap string json).

#[global] Instance json_inhabited : Inhabited json := populate JNull.

(** Python truth values of the objects the code tests with [if x] and
    [x or y]. *)
Definition truthy (v : json) : bool :=
  match v with
  | JNull => false
  | JBool b => b
  | JNum z => bool_decide (z ≠ 0)
  | JStr s => bool_decide (s ≠ "")
  | JArr l => bool_decide (l ≠ [])
  | JObj m => bool_decide (m ≠ ∅)
  end.

Definition truthy_opt_str (o : option string) : bool :=
  match o with
  | None => false
  | Some s => bool_decide (s ≠ "")
  end.

(** [d.get(k)] ([None] when the key is absent) and [a or b]. *)
Definition dict_get (d : gmap string json) (k : string) : json :=
  default JNull (d !! k).

Definition py_or (a b : json) : json := if truthy a then a else b.

(** [app.core.config.settings], as far as the pipeline reads it. *)
Record Settings := {
  MEM0_API_KEY : option string;
  MOONDREAM_API_KEY : option string;
}.

(** The pure library functions the pipeline calls on payloads.
    [None] stands for the call raising (or, for [imdecode], returning
    [None]); [image_open] is whether [Image.open(BytesIO(b))] succeeds. *)
Class Codec := {
  b64decode : string → option bytes;
  imdecode : bytes → option Frame;
  image_open : bytes → bool;
}.

(** Log records: the level, the text of the f-string with [{}] for each
    interpolated value, and the interpolated values. *)
Inductive level := DEBUG | INFO | WARNING | ERROR.

Inductive logarg :=
| AInt (z : Z)
| AStr (s : string)
| ANone
| AJson (v : json)
| AOpaque.  (* a value outside the model: exception text, encoded size *)

Definition AOptStr (o : option string) : logarg :=
  match o with Some s => AStr s | None => ANone end.

Record log_record := {
  log_level : level;
  log_template : string;
  log_args : list logarg;
}.

Definition log (l : level) (t : string) (a : list logarg) : log_record :=
  {| log_level := l; log_template := t; log_args := a |}.

(** ** clip_encoder.py *)

Module ClipEncoder.

(** The bytes of the MP4 file, seen through what went into the
    [cv2.VideoWriter]: [b""] of the empty case, or the writer's frame
    rate, its [(width, height)] and the frames written, in order. *)
Inductive Video :=
| EmptyVideo
| Mp4 (fps : Z) (size : Z * Z) (written : list Frame).

(** [datetime.isoformat()] texts: the empty string of the empty case, or
    the ISO-8601 text of a timestamp. *)
Inductive isostr :=
| IsoEmpty
| IsoFormat (t : Z).

(** The tuple (video_bytes, start_time_iso, end_time_iso, clip_index,
    thumbnail_bytes). *)
Record ClipResult := {
  video_bytes : Video;
  start_time : isostr;
  end_time : isostr;
  result_index : Z;
  thumbnail_bytes : bytes;
}.

Record t := {
  clip_duration : Z;              (* microseconds *)
  fps : Z;
  frames : list (Frame * Z);      (* deque of (frame, timestamp) *)
  clip_start_time : option Z;
  clip_index : Z;
}.

(** [__init__] *)
Definition init (clip_duration_sec_us : Z) (fps0 : Z) : t :=
  {| clip_duration := clip_duration_sec_us; fps := fps0;
     frames := []; clip_start_time := None; clip_index := 0 |}.

(** What a method call leaves behind: the object, the value returned
    and the records logged. *)
Record ret (A : Type) := Ret {
  self_after : t;
  returned : A;
  logged : list log_record;
}.
Arguments Ret {A} _ _ _.
Arguments self_after {A} _.
Arguments returned {A} _.
Arguments logged {A} _.

(** [_encode_clip] *)
Definition _encode_clip (self : t) : ret ClipResult :=
  match frames self with
  | [] =>
      Ret self
        {| video_bytes := EmptyVideo; start_time := IsoEmpty;
           end_time := IsoEmpty; result_index := clip_index self;
           thumbnail_bytes := [] |}
        []
  | (first_frame, first_ts) :: _ =>
      let height := frame_height first_frame in
      let width := frame_width first_frame in
      let middle_idx := (length (frames self) `div` 2)%nat in
      let middle_frame :=
        default first_frame (fst <$> frames self !! middle_idx) in
      let thumbnail := frame_jpeg80 middle_frame in
      let written := fst <$> frames self in
      let frame_count := Z.of_nat (length written) in
      let video := Mp4 (fps self) (width, height) written in
      let start := IsoFormat first_ts in
      let stop := IsoFormat (default first_ts (snd <$> last (frames self))) in
      let current_index := clip_index self in
      Ret {| clip_duration := clip_duration self; fps := fps self;
             frames := []; clip_start_time := None;
             clip_index := clip_index self + 1 |}
          {| video_bytes := video; start_time := start; end_time := stop;
             result_index := current_index; thumbnail_bytes := thumbnail |}
          [log INFO "[Encoder] Clip {}: {} frames, {} bytes, thumb {} bytes"
               [AInt current_index; AInt frame_count; AOpaque;
                AInt (Z.of_nat (length thumbnail))]]
  end.

(** [add_frame] *)
Definition add_frame `{Codec} (self : t) (image_bytes : bytes)
    (timestamp : Z) : ret (option ClipResult) :=
  match imdecode image_bytes with
  | None => Ret self None [log WARNING "[Encoder] Failed to decode frame" []]
  | Some frame =>
      let start := default timestamp (clip_start_time self) in
      let self1 :=
        {| clip_duration := clip_duration self; fps := fps self;
           frames := frames self ++ [(frame, timestamp)];
           clip_start_time := Some start;
           clip_index := clip_index self |} in
      let elapsed := timestamp - start in
      if bool_decide (clip_duration self ≤ elapsed) then
        let r := _encode_clip self1 in
        Ret (self_after r) (Some (returned r)) (logged r)
      else Ret self1 None []
  end.

(** [flush] *)
Definition flush (self : t) : ret (option ClipResult) :=
  if bool_decide (0 < length (frames self))%nat then
    let r := _encode_clip self in
    Ret (self_after r) (Some (returned r))
        (log INFO "[Encoder] Flushing {} remaining frames"
             [AInt (Z.of_nat (length (frames self)))] :: logged r)
  else Ret self None [].

(** [reset] *)
Definition reset (self : t) : t :=
  {| clip_duration := clip_duration self; fps := fps self;
     frames := []; clip_start_time := None; clip_index := 0 |}.

(** A run of [add_frame] calls on one encoder: the encoder after the
    last call and what each call returned. *)
Fixpoint add_frames `{Codec} (self : t) (calls : list (bytes * Z))
    : t * list (option ClipResult) :=
  match calls with
  | [] => (self, [])
  | (image_bytes, timestamp) :: rest =>
      let r := add_frame self image_bytes timestamp in
      let '(self', outs) := add_frames (self_after r) rest in
      (self', returned r :: outs)
  end.

(** The frames written into a clip's video. *)
Definition clip_frames (c : ClipResult) : list Frame :=
  match video_bytes c with
  | EmptyVideo => []
  | Mp4 _ _ written => written
  end.

(** The frames a list of calls decodes to, and the calls all of whose
    frames decode. *)
Definition decoded `{Codec} (calls : list (bytes * Z)) : list Frame :=
  omap (λ c, imdecode c.1) calls.

Definition decodable `{Codec} (calls : list (bytes * Z)) : Prop :=
  Forall (λ c, is_Some (imdecode c.1)) calls.

End ClipEncoder.

(** A codec for examples: base64 text decodes to one byte per character,
    the empty payload is no image, and any other payload is a 2x2 frame
    whose JPEG re-encoding is the payload. *)
Module Sample.

Definition codec : Codec :=
  {| b64decode := λ s, Some ((λ _, Byte.x00) <$> String.list_ascii_of_string s);
     imdecode := λ b,
       match b with
       | [] => None
       | _ :: _ => Some {| frame_height := 2; frame_width := 2; frame_jpeg80 := b |}
       end;
     image_open := λ b, bool_decide (b ≠ []) |}.

Definition jpeg (b : Byte.byte) : bytes := [b].

Definition frame (b : Byte.byte) : Frame :=
  {| frame_height := 2; frame_width := 2; frame_jpeg80 := [b] |}.

End Sample.

(** ** Effects

    A method or a coroutine step runs on a state [S]: it returns a value
    or raises, leaves a state behind in either case, and emits events. *)

(** Storage keys, written by [S3Manager] as
    [f"{session_id}/clips/clip_{clip_index:04d}.mp4"] and
    [f"{session_id}/thumbnails/thumb_{clip_index:04d}.jpg"]. *)
Inductive s3key :=
| ClipKey (session_id : string) (clip_index : Z)
| ThumbKey (session_id : string) (clip_index : Z).

(** The dict [upload_clip] returns: s3_key, s3_bucket, start_time,
    end_time. *)
Record S3Metadata := {
  s3_key : s3key;
  s3_bucket : option string;
  md_start_time : ClipEncoder.isostr;
  md_end_time : ClipEncoder.isostr;
}.

Inductive s3body :=
| BodyVideo (v : ClipEncoder.Video)
| BodyImage (b : bytes).

(** The row [create_video_clip] adds and commits. *)
Record VideoClip := {
  row_session_id : string;
  row_clip_index : Z;
  row_s3_key : s3key;
  row_s3_bucket : option string;
  row_start_time : Z;
  row_end_time : Z;
  row_thumbnail_s3_key : option s3key;
}.

(** The caption dict: timestamp, description, frame_number. *)
Record Caption := {
  timestamp : string;
  description : string;
  frame_number : Z;
}.

(** The transcript dict: timestamp, speaker, text, session_id. *)
Record Transcript := {
  tr_timestamp : string;
  tr_speaker : string;
  tr_text : string;
  tr_session_id : string;
}.

(** The [metadata] of a [client.add] call; its ["type"] is
    ["moondream_caption"] or ["transcript"].  A caption's metadata has the
    four clip entries exactly when clip metadata was given. *)
Inductive mem0_metadata :=
| MetaCaption (c : Caption) (clip : option S3Metadata)
| MetaTranscript (tr : Transcript).

(** Messages to the client, as the dicts given to [json.dumps]. *)
Inductive outbound :=
| OutTranscript (text : string) (is_final : bool) (speaker : string)
| OutCaption (c : Caption) (clip_key : option s3key).

Inductive event :=
| EvLog (r : log_record)
| EvWsSend (m : outbound)
| EvDeepgramSend (audio : bytes)
| EvS3Put (bucket : option string) (key : s3key) (body : s3body)
    (content_type : string)
| EvDbCommit (row : VideoClip)
| EvMem0Add (content : string) (user_id : string) (metadata : mem0_metadata).

Definition logev (l : level) (t : string) (a : list logarg) : event :=
  EvLog (log l t a).

Inductive exn :=
| WebSocketDisconnect
| JSONDecodeError
| AttributeError
| TypeError
| ValueError
| BinasciiError
| Exception (msg : string)
| CollaboratorError (who : string).   (* raised inside an outside library *)

Inductive outcome (S A : Type) :=
| Returns (s : S) (a : A) (evs : list event)
| Raises (s : S) (e : exn) (evs : list event).
Arguments Returns {S A} _ _ _.
Arguments Raises {S A} _ _ _.

Definition state_of {S A} (o : outcome S A) : S :=
  match o with Returns s _ _ | Raises s _ _ => s end.

Definition events_of {S A} (o : outcome S A) : list event :=
  match o with Returns _ _ evs | Raises _ _ evs => evs end.

Definition value_of {S A} (o : outcome S A) : option A :=
  match o with Returns _ a _ => Some a | Raises _ _ _ => None end.

Definition raised {S A} (o : outcome S A) : option exn :=
  match o with Returns _ _ _ => None | Raises _ e _ => Some e end.

Definition M (S A : Type) : Type := S → outcome S A.

#[global] Instance M_ret {S} : MRet (M S) := λ A a s, Returns s a [].

#[global] Instance M_bind {S} : MBind (M S) := λ A B k m s,
  match m s with
  | Returns s1 a evs1 =>
      match k a s1 with
      | Returns s2 b evs2 => Returns s2 b (evs1 ++ evs2)
      | Raises s2 e evs2 => Raises s2 e (evs1 ++ evs2)
      end
  | Raises s1 e evs1 => Raises s1 e evs1
  end.

Notation "m ;; k" := (mbind (λ _, k) m)
  (at level 100, k at level 200, right associativity) : stdpp_scope.

Definition emit {S} (e : event) : M S unit := λ s, Returns s () [e].
Definition raise {S A} (e : exn) : M S A := λ s, Raises s e [].
Definition gets {S A} (f : S → A) : M S A := λ s, Returns s (f s) [].
Definition modify {S} (f : S → S) : M S unit := λ s, Returns (f s) () [].

(** [try: m except Exception as e: h e] *)
Definition try_except {S A} (m : M S A) (h : exn → M S A) : M S A := λ s,
  match m s with
  | Returns s1 a evs1 => Returns s1 a evs1
  | Raises s1 e evs1 =>
      match h e s1 with
      | Returns s2 b evs2 => Returns s2 b (evs1 ++ evs2)
      | Raises s2 e2 evs2 => Raises s2 e2 (evs1 ++ evs2)
      end
  end.

(** A method of an object held in a field of a larger state. *)
Definition on_field {S T A} (get : S → T) (set : T → S → S) (m : M T A)
    : M S A := λ s,
  match m (get s) with
  | Returns t a evs => Returns (set t s) a evs
  | Raises t e evs => Raises (set t s) e evs
  end.

Definition when {S} (b : bool) (m : M S unit) : M S unit :=
  if b then m else mret ().

(** Loops.  A loop body says whether the loop goes on; a coroutine that
    has used up the answers it is given is left waiting at its next
    [await]. *)
Inductive control := Continue | Break.
Inductive status := Waiting | Finished.

Fixpoint loop {S E} (body : E → M S control) (envs : list E) : M S status :=
  match envs with
  | [] => mret Waiting
  | e :: rest =>
      c ← body e;
      match c with
      | Continue => loop body rest
      | Break => mret Finished
      end
  end.

(** ** s3_utils.py *)

Module S3Manager.

Record t := {
  _client : bool;                 (* [self._client is not None] *)
  bucket_name : option string;    (* [os.environ.get("S3_BUCKET_NAME")] *)
  region : string;
}.

(** What the outside answers during one upload call: does
    [boto3.client] return, does [put_object] return. *)
Record answers := {
  boto_client_ok : bool;
  put_object_ok : bool;
}.

Definition _get_client (a : answers) : M t unit :=
  c ← gets _client;
  if c : bool then mret ()
  else if boto_client_ok a then
    modify (λ self, {| _client := true; bucket_name := bucket_name self;
                       region := region self |});;
    b ← gets bucket_name;
    emit (logev INFO "[S3] Initialized client for bucket: {}" [AOptStr b])
  else raise (CollaboratorError "boto3.client").

Definition put_object (a : answers) (key : s3key) (body : s3body)
    (content_type : string) : M t unit :=
  _get_client a;;
  b ← gets bucket_name;
  emit (EvS3Put b key body content_type);;
  if put_object_ok a then mret ()
  else raise (CollaboratorError "put_object").

Definition upload_clip (a : answers) (session_id : string) (clip_index : Z)
    (video : ClipEncoder.Video) (start_time end_time : ClipEncoder.isostr)
    : M t S3Metadata :=
  let key := ClipKey session_id clip_index in
  put_object a key (BodyVideo video) "video/mp4";;
  emit (logev INFO "[S3] Uploaded clip: {} ({} bytes)" [AOpaque; AOpaque]);;
  b ← gets bucket_name;
  mret {| s3_key := key; s3_bucket := b;
          md_start_time := start_time; md_end_time := end_time |}.

Definition upload_thumbnail (a : answers) (session_id : string)
    (clip_index : Z) (image_bytes : bytes) : M t s3key :=
  let key := ThumbKey session_id clip_index in
  put_object a key (BodyImage image_bytes) "image/jpeg";;
  emit (logev INFO "[S3] Uploaded thumbnail: {} ({} bytes)"
          [AOpaque; AInt (Z.of_nat (length image_bytes))]);;
  mret key.

End S3Manager.

(** ** mem0_client.py *)

Module Mem0Manager.

Definition USER_ID : string := "jarvis".

Record t := {
  _client : bool;           (* [self._client is not None] *)
  _init_attempted : bool;
}.

(** What the outside answers during one [store_*] call: does
    [MemoryClient(api_key=...)] return, does [client.add] return. *)
Record answers := {
  memory_client_ok : bool;
  add_ok : bool;
}.

(** [_get_client]: whether a client comes back ([None] otherwise). *)
Definition _get_client (cfg : Settings) (a : answers) : M t bool :=
  c ← gets _client;
  if c : bool then mret true
  else
    att ← gets _init_attempted;
    if att : bool then mret false
    else
      modify (λ self, {| _client := _client self; _init_attempted := true |});;
      if negb (truthy_opt_str (MEM0_API_KEY cfg)) then
        raise (Exception "MEM0_API_KEY not configured")
      else if memory_client_ok a then
        modify (λ self, {| _client := true;
                           _init_attempted := _init_attempted self |});;
        mret true
      else raise (Exception "Failed to initialize Mem0 client: {e}").

(** [await asyncio.to_thread(client.add, messages, user_id=..., metadata=...)] *)
Definition client_add (a : answers) (content : string)
    (metadata : mem0_metadata) : M t unit :=
  emit (EvMem0Add content USER_ID metadata);;
  if add_ok a then mret () else raise (CollaboratorError "client.add").

Definition caption_content (caption : Caption) : string :=
  "At " +:+ timestamp caption +:+ ", I observed: " +:+ description caption.

Definition transcript_content (tr : Transcript) : string :=
  "At " +:+ tr_timestamp tr +:+ ", " +:+ tr_speaker tr +:+ " said: "
    +:+ tr_text tr.

(** [s[:50]] *)
Definition first50 (s : string) : string := String.substring 0 50 s.

Definition store_caption (cfg : Settings) (a : answers) (caption : Caption)
    : M t bool :=
  client ← _get_client cfg a;
  if negb client then
    emit (logev WARNING "Mem0 client not available, skipping memory storage" []);;
    mret false
  else
    try_except
      (client_add a (caption_content caption) (MetaCaption caption None);;
       emit (logev INFO "[Mem0] Stored caption: {}..."
               [AStr (first50 (description caption))]);;
       mret true)
      (λ _, emit (logev ERROR "Mem0 storage error: {}" [AOpaque]);;
            mret false).

Definition store_caption_with_clip (cfg : Settings) (a : answers)
    (caption : Caption) (clip_metadata : option S3Metadata) : M t bool :=
  client ← _get_client cfg a;
  if negb client then
    emit (logev WARNING "Mem0 client not available, skipping memory storage" []);;
    mret false
  else
    try_except
      (client_add a (caption_content caption)
         (MetaCaption caption clip_metadata);;
       emit (logev INFO "[Mem0] Stored caption{}: {}..."
               [AOpaque; AStr (first50 (description caption))]);;
       mret true)
      (λ _, emit (logev ERROR "Mem0 storage error: {}" [AOpaque]);;
            mret false).

Definition store_transcript (cfg : Settings) (a : answers)
    (transcript_data : Transcript) : M t bool :=
  client ← _get_client cfg a;
  if negb client then
    emit (logev WARNING
            "Mem0 client not available, skipping transcript storage" []);;
    mret false
  else
    try_except
      (client_add a (transcript_content transcript_data)
         (MetaTranscript transcript_data);;
       emit (logev INFO "[Mem0] Stored transcript: {}..."
               [AStr (first50 (tr_text transcript_data))]);;
       mret true)
      (λ _, emit (logev ERROR "Mem0 transcript storage error: {}" [AOpaque]);;
            mret false).

End Mem0Manager.

(** ** moondream_processor.py *)

Module MoondreamProcessor.

Record t := {
  _model : bool;                   (* [self._model is not None] *)
  _initialized : bool;
  frame_history : list Caption;    (* deque(maxlen=max_history) *)
  max_history : nat;
  _frame_counter : Z;
  _process_every_n : Z;
}.

(** [__init__] *)
Definition init (max_history0 : nat) : t :=
  {| _model := false; _initialized := false; frame_history := [];
     max_history := max_history0; _frame_counter := 0;
     _process_every_n := 10 |}.

(** What the outside answers during one [process_frame] call: does
    [md.vl(api_key=...)] return; the text taken from the reply of
    [model.query] ([result.get("answer", "")], or [str(result)]), [None]
    when the query raises; [datetime.now().isoformat()]; and the
    answers to the Mem0 call. *)
Record answers := {
  model_ok : bool;
  query_answer : option string;
  now_iso : string;
  mem0_answers : Mem0Manager.answers;
}.

Definition with_counter (n : Z) (self : t) : t :=
  {| _model := _model self; _initialized := _initialized self;
     frame_history := frame_history self; max_history := max_history self;
     _frame_counter := n; _process_every_n := _process_every_n self |}.

Definition with_model (self : t) : t :=
  {| _model := true; _initialized := true;
     frame_history := frame_history self; max_history := max_history self;
     _frame_counter := _frame_counter self;
     _process_every_n := _process_every_n self |}.

(** [deque.append] on a deque with [maxlen]: the oldest entries leave. *)
Definition history_append (c : Caption) (self : t) : t :=
  let h := frame_history self ++ [c] in
  {| _model := _model self; _initialized := _initialized self;
     frame_history := drop (length h - max_history self) h;
     max_history := max_history self;
     _frame_counter := _frame_counter self;
     _process_every_n := _process_every_n self |}.

Definition _get_model (cfg : Settings) (a : answers) : M t unit :=
  m ← gets _model;
  if m : bool then mret ()
  else if negb (truthy_opt_str (MOONDREAM_API_KEY cfg)) then
    raise ValueError
  else if model_ok a then
    modify with_model;;
    emit (logev INFO "Moondream model initialized" [])
  else raise (CollaboratorError "md.vl").

(** [process_frame].  The state is the processor together with the
    [mem0_manager] singleton it stores captions into. *)
Definition process_frame `{Codec} (cfg : Settings) (a : answers)
    (image_b64 : string) : M (t * Mem0Manager.t) (option Caption) :=
  let me {A} (m : M t A) : M (t * Mem0Manager.t) A :=
    on_field fst (λ x s, (x, s.2)) m in
  let mem0 {A} (m : M Mem0Manager.t A) : M (t * Mem0Manager.t) A :=
    on_field snd (λ x s, (s.1, x)) m in
  me (modify (λ self, with_counter (_frame_counter self + 1) self));;
  counter ← me (gets _frame_counter);
  n ← me (gets _process_every_n);
  if bool_decide (counter `mod` n ≠ 0) then mret None
  else
    emit (logev INFO "[Moondream] Processing frame #{}..." [AInt counter]);;
    if negb (truthy_opt_str (MOONDREAM_API_KEY cfg)) then
      emit (logev WARNING "[Moondream] MOONDREAM_API_KEY not set, skipping" []);;
      mret None
    else
      try_except
        (image_bytes ← from_option mret (raise BinasciiError)
                         (b64decode image_b64);
         (if image_open image_bytes then
            emit (logev INFO "[Moondream] Image decoded: {}" [AOpaque])
          else raise (CollaboratorError "Image.open"));;
         me (_get_model cfg a);;
         answer ← from_option mret (raise (CollaboratorError "model.query"))
                    (query_answer a);
         emit (logev INFO "[Moondream] Raw result: {}" [AOpaque]);;
         let frame_data :=
           {| timestamp := now_iso a; description := answer;
              frame_number := counter |} in
         me (modify (history_append frame_data));;
         emit (logev INFO "[Moondream] {}: {}" [AStr (now_iso a); AStr answer]);;
         mem0 (Mem0Manager.store_caption cfg (mem0_answers a) frame_data);;
         mret (Some frame_data))
        (λ _, emit (logev ERROR "Moondream processing error: {}" [AOpaque]);;
              mret None).

End MoondreamProcessor.

(** ** video_caption.py: the session

    The closure of [video_caption_endpoint]: its local variables, which
    the nested coroutines share, and the singletons they call. *)

(** An entry of [caption_batch]: the caption and the clip metadata that
    was current when it was appended. *)
Record CaptionEntry := {
  caption : Caption;
  clip_metadata : option S3Metadata;
}.

Record Session := {
  session_id : string;
  audio_queue : list (option (gmap string json));
  image_queue : list (option (gmap string json));
  upload_queue : list (option ClipEncoder.ClipResult);
  transcript_batch : list Transcript;
  caption_batch : list CaptionEntry;
  mem0_transcript_requests : Z;
  mem0_caption_requests : Z;
  mem0_total_transcripts : Z;
  mem0_total_captions : Z;
  clip_encoder : ClipEncoder.t;
  current_clip_metadata : option S3Metadata;
  deepgram_connection : bool;   (* [deepgram_connection is not None] *)
  deepgram_running : bool;
  s3_manager : S3Manager.t;   (* module-level singletons *)
  mem0_manager : Mem0Manager.t;
  moondream_processor : MoondreamProcessor.t;
  settings : Settings;
  msg_count : Z;   (* local of [message_router] *)
  chunk_count : Z;   (* local of [audio_processor] *)
}.

Definition set_audio_queue (v : list (option (gmap string json))) (s : Session) : Session :=
  {| session_id := session_id s; audio_queue := v;
     image_queue := image_queue s; upload_queue := upload_queue s;
     transcript_batch := transcript_batch s;
     caption_batch := caption_batch s;
     mem0_transcript_requests := mem0_transcript_requests s;
     mem0_caption_requests := mem0_caption_requests s;
     mem0_total_transcripts := mem0_total_transcripts s;
     mem0_total_captions := mem0_total_captions s;
     clip_encoder := clip_encoder s;
     current_clip_metadata := current_clip_metadata s;
     deepgram_connection := deepgram_connection s;
     deepgram_running := deepgram_running s; s3_manager := s3_manager s;
     mem0_manager := mem0_manager s;
     moondream_processor := moondream_processor s; settings := settings s;
     msg_count := msg_count s; chunk_count := chunk_count s |}.

Definition set_image_queue (v : list (option (gmap string json))) (s : Session) : Session :=
  {| session_id := session_id s; audio_queue := audio_queue s;
     image_queue := v; upload_queue := upload_queue s;
     transcript_batch := transcript_batch s;
     caption_batch := caption_batch s;
     mem0_transcript_requests := mem0_transcript_requests s;
     mem0_caption_requests := mem0_caption_requests s;
     mem0_total_transcripts := mem0_total_transcripts s;
     mem0_total_captions := mem0_total_captions s;
     clip_encoder := clip_encoder s;
     current_clip_metadata := current_clip_metadata s;
     deepgram_connection := deepgram_connection s;
     deepgram_running := deepgram_running s; s3_manager := s3_manager s;
     mem0_manager := mem0_manager s;
     moondream_processor := moondream_processor s; settings := settings s;
     msg_count := msg_count s; chunk_count := chunk_count s |}.

Definition set_upload_queue (v : list (option ClipEncoder.ClipResult)) (s : Session) : Session :=
  {| session_id := session_id s; audio_queue := audio_queue s;
     image_queue := image_queue s; upload_queue := v;
     transcript_batch := transcript_batch s;
     caption_batch := caption_batch s;
     mem0_transcript_requests := mem0_transcript_requests s;
     mem0_caption_requests := mem0_caption_requests s;
     mem0_total_transcripts := mem0_total_transcripts s;
     mem0_total_captions := mem0_total_captions s;
     clip_encoder := clip_encoder s;
     current_clip_metadata := current_clip_metadata s;
     deepgram_connection := deepgram_connection s;
     deepgram_running := deepgram_running s; s3_manager := s3_manager s;
     mem0_manager := mem0_manager s;
     moondream_processor := moondream_processor s; settings := settings s;
     msg_count := msg_count s; chunk_count := chunk_count s |}.

Definition set_transcript_batch (v : list Transcript) (s : Session) : Session :=
  {| session_id := session_id s; audio_queue := audio_queue s;
     image_queue := image_queue s; upload_queue := upload_queue s;
     transcript_batch := v; caption_batch := caption_batch s;
     mem0_transcript_requests := mem0_transcript_requests s;
     mem0_caption_requests := mem0_caption_requests s;
     mem0_total_transcripts := mem0_total_transcripts s;
     mem0_total_captions := mem0_total_captions s;
     clip_encoder := clip_encoder s;
     current_clip_metadata := current_clip_metadata s;
     deepgram_connection := deepgram_connection s;
     deepgram_running := deepgram_running s; s3_manager := s3_manager s;
     mem0_manager := mem0_manager s;
     moondream_processor := moondream_processor s; settings := settings s;
     msg_count := msg_count s; chunk_count := chunk_count s |}.

Definition set_caption_batch (v : list CaptionEntry) (s : Session) : Session :=
  {| session_id := session_id s; audio_queue := audio_queue s;
     image_queue := image_queue s; upload_queue := upload_queue s;
     transcript_batch := transcript_batch s; caption_batch := v;
     mem0_transcript_requests := mem0_transcript_requests s;
     mem0_caption_requests := mem0_caption_requests s;
     mem0_total_transcripts := mem0_total_transcripts s;
     mem0_total_captions := mem0_total_captions s;
     clip_encoder := clip_encoder s;
     current_clip_metadata := current_clip_metadata s;
     deepgram_connection := deepgram_connection s;
     deepgram_running := deepgram_running s; s3_manager := s3_manager s;
     mem0_manager := mem0_manager s;
     moondream_processor := moondream_processor s; settings := settings s;
     msg_count := msg_count s; chunk_count := chunk_count s |}.

Definition set_mem0_transcript_requests (v : Z) (s : Session) : Session :=
  {| session_id := session_id s; audio_queue := audio_queue s;
     image_queue := image_queue s; upload_queue := upload_queue s;
     transcript_batch := transcript_batch s;
     caption_batch := caption_batch s; mem0_transcript_requests := v;
     mem0_caption_requests := mem0_caption_requests s;
     mem0_total_transcripts := mem0_total_transcripts s;
     mem0_total_captions := mem0_total_captions s;
     clip_encoder := clip_encoder s;
     current_clip_metadata := current_clip_metadata s;
     deepgram_connection := deepgram_connection s;
     deepgram_running := deepgram_running s; s3_manager := s3_manager s;
     mem0_manager := mem0_manager s;
     moondream_processor := moondream_processor s; settings := settings s;
     msg_count := msg_count s; chunk_count := chunk_count s |}.

Definition set_mem0_caption_requests (v : Z) (s : Session) : Session :=
  {| session_id := session_id s; audio_queue := audio_queue s;
     image_queue := image_queue s; upload_queue := upload_queue s;
     transcript_batch := transcript_batch s;
     caption_batch := caption_batch s;
     mem0_transcript_requests := mem0_transcript_requests s;
     mem0_caption_requests := v;
     mem0_total_transcripts := mem0_total_transcripts s;
     mem0_total_captions := mem0_total_captions s;
     clip_encoder := clip_encoder s;
     current_clip_metadata := current_clip_metadata s;
     deepgram_connection := deepgram_connection s;
     deepgram_running := deepgram_running s; s3_manager := s3_manager s;
     mem0_manager := mem0_manager s;
     moondream_processor := moondream_processor s; settings := settings s;
     msg_count := msg_count s; chunk_count := chunk_count s |}.

Definition set_mem0_total_transcripts (v : Z) (s : Session) : Session :=
  {| session_id := session_id s; audio_queue := audio_queue s;
     image_queue := image_queue s; upload_queue := upload_queue s;
     transcript_batch := transcript_batch s;
     caption_batch := caption_batch s;
     mem0_transcript_requests := mem0_transcript_requests s;
     mem0_caption_requests := mem0_caption_requests s;
     mem0_total_transcripts := v;
     mem0_total_captions := mem0_total_captions s;
     clip_encoder := clip_encoder s;
     current_clip_metadata := current_clip_metadata s;
     deepgram_connection := deepgram_connection s;
     deepgram_running := deepgram_running s; s3_manager := s3_manager s;
     mem0_manager := mem0_manager s;
     moondream_processor := moondream_processor s; settings := settings s;
     msg_count := msg_count s; chunk_count := chunk_count s |}.

Definition set_mem0_total_captions (v : Z) (s : Session) : Session :=
  {| session_id := session_id s; audio_queue := audio_queue s;
     image_queue := image_queue s; upload_queue := upload_queue s;
     transcript_batch := transcript_batch s;
     caption_batch := caption_batch s;
     mem0_transcript_requests := mem0_transcript_requests s;
     mem0_caption_requests := mem0_caption_requests s;
     mem0_total_transcripts := mem0_total_transcripts s;
     mem0_total_captions := v; clip_encoder := clip_encoder s;
     current_clip_metadata := current_clip_metadata s;
     deepgram_connection := deepgram_connection s;
     deepgram_running := deepgram_running s; s3_manager := s3_manager s;
     mem0_manager := mem0_manager s;
     moondream_processor := moondream_processor s; settings := settings s;
     msg_count := msg_count s; chunk_count := chunk_count s |}.

Definition set_clip_encoder (v : ClipEncoder.t) (s : Session) : Session :=
  {| session_id := session_id s; audio_queue := audio_queue s;
     image_queue := image_queue s; upload_queue := upload_queue s;
     transcript_batch := transcript_batch s;
     caption_batch := caption_batch s;
     mem0_transcript_requests := mem0_transcript_requests s;
     mem0_caption_requests := mem0_caption_requests s;
     mem0_total_transcripts := mem0_total_transcripts s;
     mem0_total_captions := mem0_total_captions s; clip_encoder := v;
     current_clip_metadata := current_clip_metadata s;
     deepgram_connection := deepgram_connection s;
     deepgram_running := deepgram_running s; s3_manager := s3_manager s;
     mem0_manager := mem0_manager s;
     moondream_processor := moondream_processor s; settings := settings s;
     msg_count := msg_count s; chunk_count := chunk_count s |}.

Definition set_current_clip_metadata (v : option S3Metadata) (s : Session) : Session :=
  {| session_id := session_id s; audio_queue := audio_queue s;
     image_queue := image_queue s; upload_queue := upload_queue s;
     transcript_batch := transcript_batch s;
     caption_batch := caption_batch s;
     mem0_transcript_requests := mem0_transcript_requests s;
     mem0_caption_requests := mem0_caption_requests s;
     mem0_total_transcripts := mem0_total_transcripts s;
     mem0_total_captions := mem0_total_captions s;
     clip_encoder := clip_encoder s; current_clip_metadata := v;
     deepgram_connection := deepgram_connection s;
     deepgram_running := deepgram_running s; s3_manager := s3_manager s;
     mem0_manager := mem0_manager s;
     moondream_processor := moondream_processor s; settings := settings s;
     msg_count := msg_count s; chunk_count := chunk_count s |}.

Definition set_deepgram_running (v : bool) (s : Session) : Session :=
  {| session_id := session_id s; audio_queue := audio_queue s;
     image_queue := image_queue s; upload_queue := upload_queue s;
     transcript_batch := transcript_batch s;
     caption_batch := caption_batch s;
     mem0_transcript_requests := mem0_transcript_requests s;
     mem0_caption_requests := mem0_caption_requests s;
     mem0_total_transcripts := mem0_total_transcripts s;
     mem0_total_captions := mem0_total_captions s;
     clip_encoder := clip_encoder s;
     current_clip_metadata := current_clip_metadata s;
     deepgram_connection := deepgram_connection s; deepgram_running := v;
     s3_manager := s3_manager s; mem0_manager := mem0_manager s;
     moondream_processor := moondream_processor s; settings := settings s;
     msg_count := msg_count s; chunk_count := chunk_count s |}.

Definition set_s3_manager (v : S3Manager.t) (s : Session) : Session :=
  {| session_id := session_id s; audio_queue := audio_queue s;
     image_queue := image_queue s; upload_queue := upload_queue s;
     transcript_batch := transcript_batch s;
     caption_batch := caption_batch s;
     mem0_transcript_requests := mem0_transcript_requests s;
     mem0_caption_requests := mem0_caption_requests s;
     mem0_total_transcripts := mem0_total_transcripts s;
     mem0_total_captions := mem0_total_captions s;
     clip_encoder := clip_encoder s;
     current_clip_metadata := current_clip_metadata s;
     deepgram_connection := deepgram_connection s;
     deepgram_running := deepgram_running s; s3_manager := v;
     mem0_manager := mem0_manager s;
     moondream_processor := moondream_processor s; settings := settings s;
     msg_count := msg_count s; chunk_count := chunk_count s |}.

Definition set_mem0_manager (v : Mem0Manager.t) (s : Session) : Session :=
  {| session_id := session_id s; audio_queue := audio_queue s;
     image_queue := image_queue s; upload_queue := upload_queue s;
     transcript_batch := transcript_batch s;
     caption_batch := caption_batch s;
     mem0_transcript_requests := mem0_transcript_requests s;
     mem0_caption_requests := mem0_caption_requests s;
     mem0_total_transcripts := mem0_total_transcripts s;
     mem0_total_captions := mem0_total_captions s;
     clip_encoder := clip_encoder s;
     current_clip_metadata := current_clip_metadata s;
     deepgram_connection := deepgram_connection s;
     deepgram_running := deepgram_running s; s3_manager := s3_manager s;
     mem0_manager := v; moondream_processor := moondream_processor s;
     settings := settings s; msg_count := msg_count s;
     chunk_count := chunk_count s |}.

Definition set_moondream_processor (v : MoondreamProcessor.t) (s : Session) : Session :=
  {| session_id := session_id s; audio_queue := audio_queue s;
     image_queue := image_queue s; upload_queue := upload_queue s;
     transcript_batch := transcript_batch s;
     caption_batch := caption_batch s;
     mem0_transcript_requests := mem0_transcript_requests s;
     mem0_caption_requests := mem0_caption_requests s;
     mem0_total_transcripts := mem0_total_transcripts s;
     mem0_total_captions := mem0_total_captions s;
     clip_encoder := clip_encoder s;
     current_clip_metadata := current_clip_metadata s;
     deepgram_connection := deepgram_connection s;
     deepgram_running := deepgram_running s; s3_manager := s3_manager s;
     mem0_manager := mem0_manager s; moondream_processor := v;
     settings := settings s; msg_count := msg_count s;
     chunk_count := chunk_count s |}.

Definition set_msg_count (v : Z) (s : Session) : Session :=
  {| session_id := session_id s; audio_queue := audio_queue s;
     image_queue := image_queue s; upload_queue := upload_queue s;
     transcript_batch := transcript_batch s;
     caption_batch := caption_batch s;
     mem0_transcript_requests := mem0_transcript_requests s;
     mem0_caption_requests := mem0_caption_requests s;
     mem0_total_transcripts := mem0_total_transcripts s;
     mem0_total_captions := mem0_total_captions s;
     clip_encoder := clip_encoder s;
     current_clip_metadata := current_clip_metadata s;
     deepgram_connection := deepgram_connection s;
     deepgram_running := deepgram_running s; s3_manager := s3_manager s;
     mem0_manager := mem0_manager s;
     moondream_processor := moondream_processor s; settings := settings s;
     msg_count := v; chunk_count := chunk_count s |}.

Definition set_chunk_count (v : Z) (s : Session) : Session :=
  {| session_id := session_id s; audio_queue := audio_queue s;
     image_queue := image_queue s; upload_queue := upload_queue s;
     transcript_batch := transcript_batch s;
     caption_batch := caption_batch s;
     mem0_transcript_requests := mem0_transcript_requests s;
     mem0_caption_requests := mem0_caption_requests s;
     mem0_total_transcripts := mem0_total_transcripts s;
     mem0_total_captions := mem0_total_captions s;
     clip_encoder := clip_encoder s;
     current_clip_metadata := current_clip_metadata s;
     deepgram_connection := deepgram_connection s;
     deepgram_running := deepgram_running s; s3_manager := s3_manager s;
     mem0_manager := mem0_manager s;
     moondream_processor := moondream_processor s; settings := settings s;
     msg_count := msg_count s; chunk_count := v |}.

(** A fresh session, as the endpoint sets it up before the tasks start:
    empty queues and batches, a 10-second 24-fps encoder, and the Deepgram
    connection open. *)
Definition new_session (sid : string) (cfg : Settings) (s3 : S3Manager.t)
    (mem0 : Mem0Manager.t) (moondream : MoondreamProcessor.t) : Session :=
  {| session_id := sid; audio_queue := []; image_queue := [];
     upload_queue := []; transcript_batch := []; caption_batch := [];
     mem0_transcript_requests := 0; mem0_caption_requests := 0;
     mem0_total_transcripts := 0; mem0_total_captions := 0;
     clip_encoder := ClipEncoder.init 10000000 24;
     current_clip_metadata := None;
     deepgram_connection := true; deepgram_running := true;
     s3_manager := s3; mem0_manager := mem0;
     moondream_processor := moondream; settings := cfg;
     msg_count := 0; chunk_count := 0 |}.

(** [await queue.put(item)] on an unbounded queue. *)
Definition put {A} (get : Session → list A) (set : list A → Session → Session)
    (item : A) : M Session unit :=
  modify (λ s, set (get s ++ [item]) s).

(** A consumer loop [while True: item = await queue.get(); ...]: each
    iteration takes the head of the queue; on an empty queue the
    coroutine waits. *)
Fixpoint consume {E A} (get : Session → list A)
    (set : list A → Session → Session)
    (body : E → A → M Session control) (envs : list E) : M Session status :=
  match envs with
  | [] => mret Waiting
  | e :: rest =>
      q ← gets get;
      match q with
      | [] => mret Waiting
      | item :: q' =>
          modify (set q');;
          c ← body e item;
          match c with
          | Continue => consume get set body rest
          | Break => mret Finished
          end
      end
  end.

(** [v == "..."] for a value read from a message. *)
Definition is_str (v : json) (s : string) : bool :=
  match v with
  | JStr s' => bool_decide (s' = s)
  | _ => false
  end.

(** [base64.b64decode(v)] for a value read from a message. *)
Definition py_b64decode `{Codec} {S} (v : json) : M S bytes :=
  match v with
  | JStr s => from_option mret (raise BinasciiError) (b64decode s)
  | _ => raise TypeError
  end.

(** *** message_router *)

(** A text frame: text on which [json.loads] raises, or the text of a
    JSON value. *)
Inductive wire_text :=
| NotJson (raw : string)
| JsonText (v : json).

(** What [await websocket.receive_text()] does: return a frame, or raise
    [WebSocketDisconnect]. *)
Inductive received :=
| Text (data : wire_text)
| Disconnected.

Definition json_loads {S} (data : wire_text) : M S json :=
  match data with
  | NotJson _ => raise JSONDecodeError
  | JsonText v => mret v
  end.

(** One iteration of the [while True] of [message_router]. *)
Definition message_router_iter (r : received) : M Session control :=
  data ← match r with
         | Text d => mret d
         | Disconnected => raise WebSocketDisconnect
         end;
  v ← json_loads data;
  (* [msg.get] exists on dicts only *)
  msg ← match v with
        | JObj m => mret m
        | _ => raise AttributeError
        end;
  let msg_type := default (JStr "") (msg !! "type") in
  modify (λ s, set_msg_count (msg_count s + 1) s);;
  n ← gets msg_count;
  when (bool_decide (n = 1) || bool_decide (n `mod` 50 = 0))
    (emit (logev INFO "[Router] Msg #{}: type={}" [AInt n; AJson msg_type]));;
  (if is_str msg_type "audio" || is_str msg_type "audio_stream"
      || bool_decide (is_Some (msg !! "audio_chunk"))
      || is_str msg_type "audio_stream_stop"
   then put audio_queue set_audio_queue (Some msg)
   else if bool_decide (is_Some (msg !! "image"))
   then put image_queue set_image_queue (Some msg)
   else mret ());;
  mret Continue.

(** [message_router]: the loop inside [try], and the handler of
    [except WebSocketDisconnect], which sends the poison pills and
    re-raises.  Any other exception leaves the coroutine as it is. *)
Definition message_router (rs : list received) : M Session status := λ s,
  match loop message_router_iter rs s with
  | Raises s1 WebSocketDisconnect evs =>
      Raises (set_image_queue (image_queue s1 ++ [None])
                (set_audio_queue (audio_queue s1 ++ [None]) s1))
             WebSocketDisconnect evs
  | o => o
  end.

(** *** audio_processor *)

(** Does [deepgram_connection.send_media] return. *)
Record audio_answers := {
  send_media_ok : bool;
}.

Definition audio_processor_iter `{Codec} (a : audio_answers)
    (msg : option (gmap string json)) : M Session control :=
  match msg with
  | None => mret Break
  | Some msg =>
      let msg_type := dict_get msg "type" in
      if is_str msg_type "audio_stream_stop" then
        n ← gets chunk_count;
        emit (logev INFO "[Audio] Stream stopped by client (processed {} chunks)"
                [AInt n]);;
        mret Continue
      else
        let audio_b64 := py_or (dict_get msg "audio_chunk") (dict_get msg "audio") in
        conn ← gets deepgram_connection;
        running ← gets deepgram_running;
        if truthy audio_b64 && conn && running then
          modify (λ s, set_chunk_count (chunk_count s + 1) s);;
          n ← gets chunk_count;
          when (bool_decide (n `mod` 10 = 0))
            (emit (logev INFO "[Audio] Chunk #{} forwarded to Deepgram" [AInt n]));;
          audio_bytes ← py_b64decode audio_b64;
          try_except
            (emit (EvDeepgramSend audio_bytes);;
             if send_media_ok a then mret ()
             else raise (CollaboratorError "send_media"))
            (λ _, emit (logev ERROR "[Deepgram] Error sending audio: {}" [AOpaque]));;
          mret Continue
        else mret Continue
  end.

Definition audio_processor `{Codec} (envs : list audio_answers)
    : M Session status :=
  consume audio_queue set_audio_queue audio_processor_iter envs.

(** *** upload_processor *)

(** What the outside answers while one clip is uploaded: the two S3
    calls, and whether the database session opens and the commit of
    [create_video_clip] returns. *)
Record upload_answers := {
  clip_put : S3Manager.answers;
  thumbnail_put : S3Manager.answers;
  db_commit_ok : bool;
}.

Definition s3 {A} (m : M S3Manager.t A) : M Session A :=
  on_field s3_manager set_s3_manager m.

(** [datetime.fromisoformat] *)
Definition fromisoformat {S} (x : ClipEncoder.isostr) : M S Z :=
  match x with
  | ClipEncoder.IsoEmpty => raise ValueError
  | ClipEncoder.IsoFormat t => mret t
  end.

(** [crud.create_video_clip] inside [async with async_session_maker()] *)
Definition create_video_clip {S} (a : upload_answers) (row : VideoClip)
    : M S unit :=
  emit (EvDbCommit row);;
  if db_commit_ok a then mret ()
  else raise (CollaboratorError "session.commit").

(** The lines before the loop: the configuration check on startup. *)
Definition upload_processor_start : M Session unit :=
  b ← gets (λ s, S3Manager.bucket_name (s3_manager s));
  if negb (truthy_opt_str b) then
    emit (logev WARNING
            "[Upload] S3_BUCKET_NAME not configured - clips will NOT be stored!" [])
  else
    emit (logev INFO "[Upload] S3 configured: bucket={}" [AOptStr b]).

Definition upload_processor_iter (a : upload_answers)
    (item : option ClipEncoder.ClipResult) : M Session control :=
  match item with
  | None =>
      emit (logev INFO "[Upload] Received shutdown signal" []);;
      mret Break
  | Some item =>
      let video_bytes := ClipEncoder.video_bytes item in
      let start_time_str := ClipEncoder.start_time item in
      let end_time_str := ClipEncoder.end_time item in
      let clip_index := ClipEncoder.result_index item in
      let thumbnail_bytes := ClipEncoder.thumbnail_bytes item in
      emit (logev INFO "[Upload] Processing clip {}: {} bytes, thumbnail {} bytes"
              [AInt clip_index; AOpaque;
               AInt (Z.of_nat (length thumbnail_bytes))]);;
      b ← gets (λ s, S3Manager.bucket_name (s3_manager s));
      if negb (truthy_opt_str b) then
        emit (logev WARNING "[Upload] Skipping clip {} - no S3 bucket configured"
                [AInt clip_index]);;
        mret Continue
      else
        sid ← gets session_id;
        try_except
          ((* 1. Upload video clip to S3 *)
           s3_metadata ← s3 (S3Manager.upload_clip (clip_put a) sid clip_index
                               video_bytes start_time_str end_time_str);
           (* 2. Upload thumbnail to S3 *)
           thumbnail_s3_key ←
             (if bool_decide (thumbnail_bytes ≠ []) then
                k ← s3 (S3Manager.upload_thumbnail (thumbnail_put a) sid
                          clip_index thumbnail_bytes);
                mret (Some k)
              else mret None);
           (* 3. Store in PostgreSQL for time-range queries *)
           start ← fromisoformat start_time_str;
           stop ← fromisoformat end_time_str;
           create_video_clip a
             {| row_session_id := sid; row_clip_index := clip_index;
                row_s3_key := s3_key s3_metadata;
                row_s3_bucket := s3_bucket s3_metadata;
                row_start_time := start; row_end_time := stop;
                row_thumbnail_s3_key := thumbnail_s3_key |};;
           emit (logev INFO "[DB] Clip {} stored: id={}, thumb={}"
                   [AInt clip_index; AOpaque; AOpaque]);;
           modify (set_current_clip_metadata (Some s3_metadata));;
           emit (logev INFO "[Upload] Clip {} complete: {}"
                   [AInt clip_index; AOpaque]))
          (λ _, emit (logev ERROR "[Upload] Failed for clip {}: {}"
                        [AInt clip_index; AOpaque]));;
        mret Continue
  end.

Definition upload_processor (envs : list upload_answers) : M Session status :=
  upload_processor_start;;
  consume upload_queue set_upload_queue upload_processor_iter envs.

(** *** image_processor *)

(** What the outside answers while one image message is handled:
    [datetime.now()], the answers to [process_frame], and whether
    [websocket.send_text] returns. *)
Record image_answers := {
  now : Z;
  vision : MoondreamProcessor.answers;
  send_text_ok : bool;
}.

(** [s.split(",", 1)[1] if "," in s else s] *)
Fixpoint after_first_comma (s : string) : option string :=
  match s with
  | EmptyString => None
  | String c rest =>
      if bool_decide (c = ","%char) then Some rest else after_first_comma rest
  end.

Definition strip_data_url (image_b64 : json) : json :=
  match image_b64 with
  | JStr s =>
      if String.prefix "data:" s then JStr (default s (after_first_comma s))
      else image_b64
  | _ => image_b64
  end.

Definition emit_logs {S} (ls : list log_record) : M S unit := λ s,
  Returns s () (EvLog <$> ls).

Definition send_text (ok : bool) (m : outbound) : M Session unit :=
  emit (EvWsSend m);;
  if ok then mret () else raise (CollaboratorError "websocket.send_text").

Definition vision_state {A}
    (m : M (MoondreamProcessor.t * Mem0Manager.t) A) : M Session A :=
  on_field (λ s, (moondream_processor s, mem0_manager s))
           (λ p s, set_moondream_processor p.1 (set_mem0_manager p.2 s)) m.

(** The loop body on an image message, in two consecutive parts: the
    frame goes into the clip buffer, then to the vision processor. *)
Definition buffer_frame `{Codec} (image_bytes : bytes) (timestamp : Z)
    : M Session unit :=
  (* Add to clip buffer (ALL frames for smooth video) *)
  enc ← gets clip_encoder;
  let r := ClipEncoder.add_frame enc image_bytes timestamp in
  modify (set_clip_encoder (ClipEncoder.self_after r));;
  emit_logs (ClipEncoder.logged r);;
  match ClipEncoder.returned r with
  | Some clip_result =>
      emit (logev INFO "[Clip] Clip ready! Queuing for upload..." []);;
      put upload_queue set_upload_queue (Some clip_result)
  | None => mret ()
  end;;
  (* Log frame buffer status periodically *)
  buffered ← gets (λ s, Z.of_nat (length (ClipEncoder.frames (clip_encoder s))));
  when (bool_decide (buffered `mod` 50 = 0) && bool_decide (0 < buffered))
    (emit (logev INFO "[Clip] Buffer: {} frames, {}s elapsed"
             [AInt buffered; AOpaque])).

Definition caption_frame `{Codec} (a : image_answers) (image_b64 : string)
    : M Session control :=
  (* Process with Moondream (throttled internally to every 10th frame) *)
  cfg ← gets settings;
  result ← vision_state
    (MoondreamProcessor.process_frame cfg (vision a) image_b64);
  match result with
  | Some result =>
      (* Accumulate caption for batched Mem0 push *)
      meta ← gets current_clip_metadata;
      modify (λ s, set_caption_batch
                     (caption_batch s ++
                        [{| caption := result; clip_metadata := meta |}]) s);;
      (* Send to client (include clip reference if available) *)
      send_text (send_text_ok a) (OutCaption result (s3_key <$> meta));;
      emit (logev INFO "[Moondream] #{} | {}..."
              [AInt (frame_number result);
               AStr (Mem0Manager.first50 (description result))]);;
      mret Continue
  | None => mret Continue
  end.

Definition image_processor_iter `{Codec} (a : image_answers)
    (msg : option (gmap string json)) : M Session control :=
  match msg with
  | None =>
      (* Flush remaining frames on disconnect *)
      enc ← gets clip_encoder;
      let r := ClipEncoder.flush enc in
      modify (set_clip_encoder (ClipEncoder.self_after r));;
      emit_logs (ClipEncoder.logged r);;
      match ClipEncoder.returned r with
      | Some final_clip => put upload_queue set_upload_queue (Some final_clip)
      | None => mret ()
      end;;
      (* Signal upload_processor to stop *)
      put upload_queue set_upload_queue None;;
      mret Break
  | Some msg =>
      let image_b64 := dict_get msg "image" in
      if negb (truthy image_b64) then mret Continue
      else
        (* Strip data URL prefix if present (Ray-Ban format) *)
        match strip_data_url image_b64 with
        | JStr image_b64 =>
            (* Decode for both Moondream and clip encoding *)
            image_bytes ← from_option mret (raise BinasciiError)
                            (b64decode image_b64);
            buffer_frame image_bytes (now a);;
            caption_frame a image_b64
        | _ => raise TypeError   (* [base64.b64decode] of a non-string *)
        end
  end.

Definition image_processor `{Codec} (envs : list image_answers)
    : M Session status :=
  consume image_queue set_image_queue image_processor_iter envs.

(** *** on_transcript *)

Definition on_transcript (now_iso : string) (ok : bool) (text : string)
    (is_final : bool) (speaker : string) : M Session unit :=
  send_text ok (OutTranscript text is_final speaker);;
  if is_final then
    emit (logev INFO ">>> [STT FINAL] [{}] {}" [AStr speaker; AStr text]);;
    sid ← gets session_id;
    modify (λ s, set_transcript_batch
                   (transcript_batch s ++
                      [{| tr_timestamp := now_iso; tr_speaker := speaker;
                          tr_text := text; tr_session_id := sid |}]) s)
  else
    emit (logev INFO "    [STT interim] [{}] {}" [AStr speaker; AStr text]).

(** *** mem0_batch_processor and flush_mem0_batch *)

(** The answers to the two Mem0 calls of one flush. *)
Record flush_answers := {
  transcript_store : Mem0Manager.answers;
  caption_store : Mem0Manager.answers;
}.

Definition mem0 {A} (m : M Mem0Manager.t A) : M Session A :=
  on_field mem0_manager set_mem0_manager m.

(** [speakers = list({t["speaker"] for t in batch});
     speakers[0] if len(speakers) == 1 else "multiple"] *)
Definition speaker_str (batch : list Transcript) : string :=
  let speakers := elements (list_to_set (tr_speaker <$> batch) : gset string) in
  if bool_decide (length speakers = 1%nat) then default "" (head speakers)
  else "multiple".

(** Python truth value of a list. *)
Definition nonempty {A} (l : list A) : bool :=
  match l with [] => false | _ :: _ => true end.

(** The transcript record one flush stores for a batch whose first entry
    is [first]. *)
Definition combined_transcript (sid : string) (first : Transcript)
    (batch : list Transcript) : Transcript :=
  {| tr_timestamp := tr_timestamp first;
     tr_speaker := speaker_str batch;
     tr_text := String.concat " " (tr_text <$> batch);
     tr_session_id := sid |}.

(** The caption one flush stores for a batch whose first entry is
    [first], and the clip metadata stored with it. *)
Definition combined_caption (first : CaptionEntry)
    (batch : list CaptionEntry) : Caption :=
  let descriptions := (λ c, description (caption c)) <$> batch in
  {| timestamp := timestamp (caption first);
     description := String.concat " | " descriptions;
     frame_number := frame_number (caption (default first (last batch))) |}.

Definition last_clip (first : CaptionEntry) (batch : list CaptionEntry)
    : option S3Metadata :=
  clip_metadata (default first (last batch)).

(** One iteration of [mem0_batch_processor], after [asyncio.sleep(30)]
    returns. *)
Definition mem0_batch_tick (a : flush_answers) : M Session control :=
  (* Snapshot and clear buffers *)
  transcripts_to_push ← gets transcript_batch;
  captions_to_push ← gets caption_batch;
  modify (set_transcript_batch []);;
  modify (set_caption_batch []);;
  if negb (nonempty transcripts_to_push) && negb (nonempty captions_to_push)
  then
    emit (logev DEBUG "[Mem0] No data to batch push" []);;
    mret Continue
  else
    sid ← gets session_id;
    cfg ← gets settings;
    match transcripts_to_push with
    | [] => mret ()
    | first :: _ =>
        let record := combined_transcript sid first transcripts_to_push in
        mem0 (Mem0Manager.store_transcript cfg (transcript_store a) record);;
        modify (λ s, set_mem0_transcript_requests
                       (mem0_transcript_requests s + 1) s);;
        modify (λ s, set_mem0_total_transcripts
                       (mem0_total_transcripts s
                        + Z.of_nat (length transcripts_to_push)) s);;
        emit (logev INFO "[Mem0] Batch transcript: {} utterances -> '{}...'"
                [AInt (Z.of_nat (length transcripts_to_push));
                 AStr (String.substring 0 60 (tr_text record))])
    end;;
    match captions_to_push with
    | [] => mret ()
    | first :: _ =>
        let record := combined_caption first captions_to_push in
        mem0 (Mem0Manager.store_caption_with_clip cfg (caption_store a) record
                (last_clip first captions_to_push));;
        modify (λ s, set_mem0_caption_requests (mem0_caption_requests s + 1) s);;
        modify (λ s, set_mem0_total_captions
                       (mem0_total_captions s
                        + Z.of_nat (length captions_to_push)) s);;
        emit (logev INFO "[Mem0] Batch captions: {} frames -> '{}...'"
                [AInt (Z.of_nat (length captions_to_push));
                 AStr (String.substring 0 60 (description record))])
    end;;
    emit (logev INFO "[Mem0] Batch pushed: {} transcripts, {} captions"
            [AInt (Z.of_nat (length transcripts_to_push));
             AInt (Z.of_nat (length captions_to_push))]);;
    mret Continue.

Definition mem0_batch_processor (envs : list flush_answers)
    : M Session status :=
  loop mem0_batch_tick envs.

(** [flush_mem0_batch]: the flush on disconnect. *)
Definition flush_mem0_batch (a : flush_answers) : M Session unit :=
  transcript_batch0 ← gets transcript_batch;
  caption_batch0 ← gets caption_batch;
  if negb (nonempty transcript_batch0) && negb (nonempty caption_batch0)
  then mret ()
  else
    emit (logev INFO "[Mem0] Flushing final batch: {} transcripts, {} captions"
            [AInt (Z.of_nat (length transcript_batch0));
             AInt (Z.of_nat (length caption_batch0))]);;
    sid ← gets session_id;
    cfg ← gets settings;
    match transcript_batch0 with
    | [] => mret ()
    | first :: _ =>
        mem0 (Mem0Manager.store_transcript cfg (transcript_store a)
                (combined_transcript sid first transcript_batch0));;
        modify (λ s, set_mem0_transcript_requests
                       (mem0_transcript_requests s + 1) s);;
        modify (λ s, set_mem0_total_transcripts
                       (mem0_total_transcripts s
                        + Z.of_nat (length transcript_batch0)) s)
    end;;
    (* the closure variable is read again here *)
    caption_batch1 ← gets caption_batch;
    match caption_batch1 with
    | [] => mret ()
    | first :: _ =>
        mem0 (Mem0Manager.store_caption_with_clip cfg (caption_store a)
                (combined_caption first caption_batch1)
                (last_clip first caption_batch1));;
        modify (λ s, set_mem0_caption_requests (mem0_caption_requests s + 1) s);;
        modify (λ s, set_mem0_total_captions
                       (mem0_total_captions s
                        + Z.of_nat (length caption_batch1)) s)
    end.

(** The [finally] of the endpoint. *)
Definition session_finally (a : flush_answers) : M Session unit :=
  modify (set_deepgram_running false);;
  (* Flush any remaining batched data to Mem0 *)
  flush_mem0_batch a;;
  t ← gets mem0_transcript_requests;
  c ← gets mem0_caption_requests;
  tt ← gets mem0_total_transcripts;
  tc ← gets mem0_total_captions;
  let total_requests := t + c in
  emit (logev INFO "============================================================" []);;
  emit (logev INFO "[Mem0] SESSION SUMMARY" []);;
  emit (logev INFO "[Mem0] Transcript requests: {} (batched {} utterances)"
          [AInt t; AInt tt]);;
  emit (logev INFO "[Mem0] Caption requests: {} (batched {} frames)"
          [AInt c; AInt tc]);;
  emit (logev INFO "[Mem0] TOTAL API REQUESTS: {}" [AInt total_requests]);;
  emit (logev INFO "============================================================" []);;
  emit (logev INFO "Video caption WebSocket closed" []).

(** ** Observations on outcomes, used to state the properties *)

(** A frame the router cannot read as a JSON object: [json.loads] raises
    on it, or yields a value that is not a dict. *)
Definition malformed (d : wire_text) : bool :=
  match d with
  | NotJson _ => true
  | JsonText (JObj _) => false
  | JsonText _ => true
  end.

(** The exception a malformed frame raises in the router. *)
Definition malformed_error (d : wire_text) : exn :=
  match d with
  | NotJson _ => JSONDecodeError
  | JsonText _ => AttributeError
  end.

(** The [client.add] calls among some events, in order. *)
Definition mem0_adds (evs : list event) : list (string * mem0_metadata) :=
  omap (λ e, match e with
             | EvMem0Add content _ metadata => Some (content, metadata)
             | _ => None
             end) evs.

(** The records logged at a level among some events, in order. *)
Definition logged_at (l : level) (evs : list event) : list log_record :=
  omap (λ e, match e with
             | EvLog r =>
                 match l, log_level r with
                 | DEBUG, DEBUG | INFO, INFO | WARNING, WARNING
                 | ERROR, ERROR => Some r
                 | _, _ => None
                 end
             | _ => None
             end) evs.

Definition is_log (e : event) : bool :=
  match e with EvLog _ => true | _ => false end.

(** The requests made to blob storage and to the database among some
    events, in order. *)
Definition storage_requests (evs : list event) : list event :=
  omap (λ e, match e with
             | EvS3Put _ _ _ _ | EvDbCommit _ => Some e
             | _ => None
             end) evs.

(** The three steps of one upload, as the answers of the outside decide
    them.  The S3 client is created on the first put and kept. *)
Definition video_upload_ok (s : Session) (a : upload_answers) : bool :=
  (S3Manager._client (s3_manager s) || S3Manager.boto_client_ok (clip_put a))
  && S3Manager.put_object_ok (clip_put a).

Definition thumbnail_upload_ok (a : upload_answers)
    (item : ClipEncoder.ClipResult) : bool :=
  match ClipEncoder.thumbnail_bytes item with
  | [] => true      (* no thumbnail: nothing to upload *)
  | _ :: _ => S3Manager.put_object_ok (thumbnail_put a)
  end.

Definition record_commit_ok (a : upload_answers)
    (item : ClipEncoder.ClipResult) : bool :=
  match ClipEncoder.start_time item, ClipEncoder.end_time item with
  | ClipEncoder.IsoFormat _, ClipEncoder.IsoFormat _ => db_commit_ok a
  | _, _ => false   (* [datetime.fromisoformat] raises *)
  end.

Definition bucket_configured (s : Session) : bool :=
  truthy_opt_str (S3Manager.bucket_name (s3_manager s)).

(** Records [upload_processor] logs for an item. *)
Definition processing_log (item : ClipEncoder.ClipResult) : event :=
  logev INFO "[Upload] Processing clip {}: {} bytes, thumbnail {} bytes"
    [AInt (ClipEncoder.result_index item); AOpaque;
     AInt (Z.of_nat (length (ClipEncoder.thumbnail_bytes item)))].

Definition skipping_log (item : ClipEncoder.ClipResult) : event :=
  logev WARNING "[Upload] Skipping clip {} - no S3 bucket configured"
    [AInt (ClipEncoder.result_index item)].

Definition failed_log (item : ClipEncoder.ClipResult) : event :=
  logev ERROR "[Upload] Failed for clip {}: {}"
    [AInt (ClipEncoder.result_index item); AOpaque].

(** The [client.add] calls a flush is after for the two batches. *)
Definition transcript_add (sid : string) (batch : list Transcript)
    : list (string * mem0_metadata) :=
  match batch with
  | [] => []
  | first :: _ =>
      let record :=
        {| tr_timestamp := tr_timestamp first;
           tr_speaker := speaker_str batch;
           tr_text := String.concat " " (tr_text <$> batch);
           tr_session_id := sid |} in
      [(Mem0Manager.transcript_content record, MetaTranscript record)]
  end.

Definition caption_add (batch : list CaptionEntry)
    : list (string * mem0_metadata) :=
  match batch, last batch with
  | first :: _, Some final =>
      let record :=
        {| timestamp := timestamp (caption first);
           description :=
             String.concat " | " ((λ c, description (caption c)) <$> batch);
           frame_number := frame_number (caption final) |} in
      [(Mem0Manager.caption_content record,
        MetaCaption record (clip_metadata final))]
  | _, _ => []
  end.

(** What a [store_*] call does, whatever the outside answers: with a
    client at hand it makes one [client.add] call and returns; after a
    failed initialisation it makes none and returns; and in every case
    it either makes the call and holds a client afterwards, or makes no
    call and holds none. *)
Definition store_spec (m : Mem0Manager.t) (o : outcome Mem0Manager.t bool)
    (content : string) (meta : mem0_metadata) : Prop :=
  (Mem0Manager._client m = true →
   state_of o = m ∧ raised o = None ∧
   mem0_adds (events_of o) = [(content, meta)]) ∧
  (Mem0Manager._client m = false → Mem0Manager._init_attempted m = true →
   state_of o = m ∧ raised o = None ∧ mem0_adds (events_of o) = []) ∧
  (mem0_adds (events_of o) = [] ∧
   Mem0Manager._client (state_of o) = false ∧
   Mem0Manager._init_attempted (state_of o) = true
   ∨ mem0_adds (events_of o) = [(content, meta)] ∧
     Mem0Manager._client (state_of o) = true ∧ raised o = None).

(** The captions sent to the client among some events, in order. *)
Definition captions_sent (evs : list event) : list Caption :=
  omap (λ e, match e with
             | EvWsSend (OutCaption c _) => Some c
             | _ => None
             end) evs.

(** A Mem0 manager that holds a client, or has not yet tried to create
    one. *)
Definition mem0_usable (m : Mem0Manager.t) : bool :=
  Mem0Manager._client m || negb (Mem0Manager._init_attempted m).

(** ** Sample data for examples *)

Module Example.

Definition cfg : Settings :=
  {| MEM0_API_KEY := Some "m0-key"; MOONDREAM_API_KEY := Some "md-key" |}.

(** No [S3_BUCKET_NAME] in the environment. *)
Definition s3_unconfigured : S3Manager.t :=
  {| S3Manager._client := false; S3Manager.bucket_name := None;
     S3Manager.region := "us-east-1" |}.

Definition s3_configured : S3Manager.t :=
  {| S3Manager._client := false; S3Manager.bucket_name := Some "clips";
     S3Manager.region := "us-east-1" |}.

(** A Mem0 manager whose client has been created. *)
Definition mem0_ready : Mem0Manager.t :=
  {| Mem0Manager._client := true; Mem0Manager._init_attempted := true |}.

Definition session : Session :=
  new_session "vc_1" cfg s3_unconfigured mem0_ready
    (MoondreamProcessor.init 50).

Definition image_msg : gmap string json :=
  {[ "image" := JStr "data:image/jpeg;base64,AAAA" ]}.

Definition stop_msg : gmap string json :=
  {[ "type" := JStr "audio_stream_stop" ]}.

Definition audio_msg : gmap string json :=
  <[ "type" := JStr "audio_stream" ]> {[ "audio_chunk" := JStr "AAAA" ]}.

Definition clip (i : Z) : ClipEncoder.ClipResult :=
  {| ClipEncoder.video_bytes :=
       ClipEncoder.Mp4 24 (2, 2) [Sample.frame Byte.x01];
     ClipEncoder.start_time := ClipEncoder.IsoFormat (i * 10000000);
     ClipEncoder.end_time := ClipEncoder.IsoFormat (i * 10000000 + 9000000);
     ClipEncoder.result_index := i;
     ClipEncoder.thumbnail_bytes := [Byte.x01] |}.

Definition all_ok : upload_answers :=
  {| clip_put := {| S3Manager.boto_client_ok := true;
                    S3Manager.put_object_ok := true |};
     thumbnail_put := {| S3Manager.boto_client_ok := true;
                         S3Manager.put_object_ok := true |};
     db_commit_ok := true |}.

Definition mem0_ok : Mem0Manager.answers :=
  {| Mem0Manager.memory_client_ok := true; Mem0Manager.add_ok := true |}.

Definition flush_ok : flush_answers :=
  {| transcript_store := mem0_ok; caption_store := mem0_ok |}.

Definition utterance (speaker text : string) : Transcript :=
  {| tr_timestamp := "2025-01-01T00:00:00"; tr_speaker := speaker;
     tr_text := text; tr_session_id := "vc_1" |}.

Definition seen (n : Z) (text : string) : CaptionEntry :=
  {| caption := {| timestamp := "2025-01-01T00:00:0" +:+ pretty n;
                   description := text; frame_number := 10 * n |};
     clip_metadata := None |}.

End Example.

(** ** Further observations, used to state properties of whole lanes *)


(** The thumbnail of a clip is the JPEG of the frame in the middle of the
    frames written. *)
Definition middle_thumbnail (c : ClipEncoder.ClipResult) : Prop :=
  ∃ f, ClipEncoder.clip_frames c
         !! (length (ClipEncoder.clip_frames c) `div` 2)%nat = Some f ∧
       ClipEncoder.thumbnail_bytes c = frame_jpeg80 f.


(** The lane the router picks for a JSON object: its first test, and its
    second test when the first fails. *)
Definition to_audio (msg : gmap string json) : bool :=
  let msg_type := default (JStr "") (msg !! "type") in
  is_str msg_type "audio" || is_str msg_type "audio_stream"
  || bool_decide (is_Some (msg !! "audio_chunk"))
  || is_str msg_type "audio_stream_stop".

Definition to_image (msg : gmap string json) : bool :=
  negb (to_audio msg) && bool_decide (is_Some (msg !! "image")).

(** The frames carrying the JSON objects [msgs]. *)
Definition object_frames (msgs : list (gmap string json)) : list received :=
  (λ m, Text (JsonText (JObj m))) <$> msgs.

(** The payloads sent to Deepgram among some events, in order. *)
Definition deepgram_sends (evs : list event) : list bytes :=
  omap (λ e, match e with EvDeepgramSend b => Some b | _ => None end) evs.

(** The metadata [upload_clip] returns for a clip of this session. *)
Definition metadata_of (s : Session) (item : ClipEncoder.ClipResult)
    : S3Metadata :=
  {| s3_key := ClipKey (session_id s) (ClipEncoder.result_index item);
     s3_bucket := S3Manager.bucket_name (s3_manager s);
     md_start_time := ClipEncoder.start_time item;
     md_end_time := ClipEncoder.end_time item |}.

(** The S3 manager with its client created or not. *)
Definition with_client (cl : bool) (m : S3Manager.t) : S3Manager.t :=
  {| S3Manager._client := cl; S3Manager.bucket_name := S3Manager.bucket_name m;
     S3Manager.region := S3Manager.region m |}.

(** A call of one of the three [store_*] methods the pipeline uses. *)
Inductive store_call :=
| CallCaption (c : Caption)
| CallCaptionWithClip (c : Caption) (clip : option S3Metadata)
| CallTranscript (tr : Transcript).

Definition perform (cfg : Settings) (a : Mem0Manager.answers)
    (call : store_call) : M Mem0Manager.t bool :=
  match call with
  | CallCaption c => Mem0Manager.store_caption cfg a c
  | CallCaptionWithClip c clip => Mem0Manager.store_caption_with_clip cfg a c clip
  | CallTranscript tr => Mem0Manager.store_transcript cfg a tr
  end.

(** The [client.add] call a store call is after. *)
Definition call_record (call : store_call) : string * mem0_metadata :=
  match call with
  | CallCaption c => (Mem0Manager.caption_content c, MetaCaption c None)
  | CallCaptionWithClip c clip =>
      (Mem0Manager.caption_content c, MetaCaption c clip)
  | CallTranscript tr => (Mem0Manager.transcript_content tr, MetaTranscript tr)
  end.

(** Store calls made one after the other on the one manager, each with
    the answers it meets; the values returned. *)
Fixpoint perform_all (cfg : Settings)
    (calls : list (Mem0Manager.answers * store_call))
    : M Mem0Manager.t (list bool) :=
  match calls with
  | [] => mret []
  | (a, call) :: rest =>
      r ← perform cfg a call;
      rs ← perform_all cfg rest;
      mret (r :: rs)
  end.

(** How many requests one flush counts for a batch. *)
Definition batch_requests {A} (l : list A) : Z :=
  if nonempty l then 1 else 0.

(** * Theorems *)

(** Runs the monad operations of a goal as far as they compute. *)
Ltac run :=
  repeat (unfold mbind, M_bind, mret, M_ret, gets, modify, emit, emit_logs,
            raise, put, when, try_except, on_field in *; cbn in *).

(** ** The clip encoder *)

Module ClipEncoderFacts.
Import ClipEncoder.

Section WithCodec.
Context `{Codec}.

Lemma encode_clip_nonempty self :
  frames self ≠ [] →
  frames (self_after (_encode_clip self)) = [] ∧
  clip_start_time (self_after (_encode_clip self)) = None ∧
  clip_index (self_after (_encode_clip self)) = clip_index self + 1 ∧
  clip_duration (self_after (_encode_clip self)) = clip_duration self ∧
  result_index (returned (_encode_clip self)) = clip_index self ∧
  clip_frames (returned (_encode_clip self)) = (frames self).*1.
Proof.
  unfold _encode_clip, clip_frames.
  destruct (frames self) as [|[f0 t0] rest] eqn:E; [done|].
  intros _. cbn. done.
Qed.

Lemma add_frame_undecodable self b ts :
  imdecode b = None →
  self_after (add_frame self b ts) = self ∧
  returned (add_frame self b ts) = None.
Proof. intros E. unfold add_frame. by rewrite E. Qed.

(** One call on a decodable frame: either the window is not over and
    the frame is buffered, or a clip comes out and the buffer is
    empty again. *)
Lemma add_frame_decodable self b ts f :
  imdecode b = Some f →
  let start := default ts (clip_start_time self) in
  (clip_duration self ≤ ts - start ∧
   ∃ c, returned (add_frame self b ts) = Some c ∧
        clip_frames c = (frames self).*1 ++ [f] ∧
        result_index c = clip_index self ∧
        frames (self_after (add_frame self b ts)) = [] ∧
        clip_index (self_after (add_frame self b ts)) = clip_index self + 1 ∧
        clip_duration (self_after (add_frame self b ts)) = clip_duration self)
  ∨
  (¬ clip_duration self ≤ ts - start ∧
   returned (add_frame self b ts) = None ∧
   frames (self_after (add_frame self b ts)) = frames self ++ [(f, ts)] ∧
   clip_index (self_after (add_frame self b ts)) = clip_index self ∧
   clip_duration (self_after (add_frame self b ts)) = clip_duration self).
Proof.
  intros E start. unfold add_frame. rewrite E. fold start.
  case_bool_decide as Hd; [left|right]; split; try done.
  set (self1 := {| clip_duration := _ |}).
  destruct (encode_clip_nonempty self1) as (?&?&?&?&?&Hfr).
  { cbn. by destruct (frames self). }
  eexists. split; [done|]. cbn.
  rewrite Hfr. cbn. rewrite fmap_app. done.
Qed.

Lemma add_frames_app self l1 l2 :
  add_frames self (l1 ++ l2) =
  ((add_frames (add_frames self l1).1 l2).1,
   (add_frames self l1).2 ++ (add_frames (add_frames self l1).1 l2).2).
Proof.
  revert self. induction l1 as [|[b ts] l1 IH]; intros self; cbn.
  - by destruct (add_frames self l2).
  - rewrite IH.
    destruct (add_frames (self_after (add_frame self b ts)) l1) as [s1 o1].
    done.
Qed.

Lemma add_frames_length self calls :
  length (add_frames self calls).2 = length calls.
Proof.
  revert self. induction calls as [|[b ts] l IH]; intros self; cbn; [done|].
  specialize (IH (self_after (add_frame self b ts))).
  destruct (add_frames _ l). cbn in *. by rewrite IH.
Qed.

Lemma add_frame_duration self b ts :
  clip_duration (self_after (add_frame self b ts)) = clip_duration self.
Proof.
  destruct (imdecode b) as [f|] eqn:E.
  - destruct (add_frame_decodable self b ts f E) as [(_&c&_&_&_&_&_&->)|(_&_&_&_&->)]; done.
  - by destruct (add_frame_undecodable self b ts E) as [-> _].
Qed.

Lemma add_frames_duration self calls :
  clip_duration (add_frames self calls).1 = clip_duration self.
Proof.
  revert self. induction calls as [|[b ts] l IH]; intros self; cbn; [done|].
  specialize (IH (self_after (add_frame self b ts))).
  destruct (add_frames _ l). cbn in *. by rewrite IH, add_frame_duration.
Qed.

Lemma add_frames_lookup self calls (i : nat) b ts :
  calls !! i = Some (b, ts) →
  (add_frames self calls).2 !! i =
  Some (returned (add_frame (add_frames self (take i calls)).1 b ts)).
Proof.
  revert self i. induction calls as [|[b0 t0] l IH]; intros self i Hi; [done|].
  destruct i as [|i]; cbn in *.
  - injection Hi as -> ->. by destruct (add_frames _ l).
  - specialize (IH (self_after (add_frame self b0 t0)) i Hi).
    destruct (add_frames _ l) as [s1 o1].
    destruct (add_frames _ (take i l)) as [s2 o2]. done.
Qed.

(** Indices of the clips a run emits count up from the encoder's
    [clip_index]. *)
Lemma add_frames_indices self calls :
  let outs := (add_frames self calls).2 in
  result_index <$> omap id outs =
    seqZ (clip_index self) (Z.of_nat (length (omap id outs))) ∧
  clip_index (add_frames self calls).1 =
    clip_index self + Z.of_nat (length (omap id outs)).
Proof.
  revert self. induction calls as [|[b ts] l IH]; intros self; cbn.
  { split; [done|lia]. }
  specialize (IH (self_after (add_frame self b ts))).
  destruct (add_frames _ l) as [s1 o1]. cbn in *.
  destruct IH as [IH1 IH2].
  destruct (imdecode b) as [f|] eqn:E.
  - destruct (add_frame_decodable self b ts f E)
      as [(_&c&Hr&_&Hi&_&Hn&_)|(_&Hr&_&Hn&_)]; rewrite Hr; cbn.
    + rewrite Hn in IH1, IH2. split; [|lia].
      rewrite Nat2Z.inj_succ, seqZ_cons by lia.
      rewrite Hi, IH1. f_equal. f_equal; lia.
    + rewrite Hn in IH1, IH2. done.
  - destruct (add_frame_undecodable self b ts E) as [Hs Hr].
    rewrite Hr; cbn. rewrite Hs in IH1, IH2. done.
Qed.

(** A run whose only clip is returned by its last call: the clip
    holds what was buffered before plus every frame of the run. *)
Lemma add_frames_segment self seg c :
  decodable seg →
  (add_frames self seg).2 = replicate (length seg - 1) None ++ [Some c] →
  clip_frames c = (frames self).*1 ++ decoded seg.
Proof.
  revert self. induction seg as [|[b ts] seg IH]; intros self Hdec Houts.
  { cbn in Houts. done. }
  apply Forall_cons in Hdec as [[f Hf] Hdec]. cbn in Hf.
  cbn in Houts. unfold decoded. cbn. rewrite Hf. fold (decoded seg).
  specialize (IH (self_after (add_frame self b ts)) Hdec).
  pose proof (add_frames_length (self_after (add_frame self b ts)) seg) as Hlen.
  destruct (add_frames _ seg) as [s1 o1]. cbn in *.
  destruct seg as [|x seg'].
  - destruct o1; [|done]. cbn in Houts. injection Houts as Hr.
    destruct (add_frame_decodable self b ts f Hf)
      as [(_&c'&Hr'&Hfr&_)|(_&Hr'&_)]; [|congruence].
    rewrite Hr in Hr'. injection Hr' as <-. by rewrite Hfr.
  - cbn [length] in Houts. replace (S (S (length seg')) - 1)%nat
      with (S (length (x :: seg') - 1)) in Houts by (cbn; lia).
    cbn [replicate app] in Houts. injection Houts as Hr Ho.
    destruct (add_frame_decodable self b ts f Hf)
      as [(_&c'&Hr'&_)|(_&_&Hfr&_)]; [congruence|].
    rewrite IH, Hfr, fmap_app; [cbn; by rewrite <- app_assoc|].
    rewrite Ho. f_equal. f_equal. cbn. lia.
Qed.

Lemma add_frames_last_emits self pre c0 :
  frames self = [] →
  last (add_frames self pre).2 = Some (Some c0) →
  frames (add_frames self pre).1 = [].
Proof.
  intros Hs. destruct pre as [|x pre _] using rev_ind; [done|].
  destruct x as [b ts]. rewrite add_frames_app. cbn.
  rewrite last_snoc. intros [= Hr].
  destruct (imdecode b) as [f|] eqn:E.
  - destruct (add_frame_decodable (add_frames self pre).1 b ts f E)
      as [(_&c'&_&_&_&Hf&_)|(_&Hr'&_)]; [done|congruence].
  - destruct (add_frame_undecodable (add_frames self pre).1 b ts E); congruence.
Qed.


(** C4.  A run of [add_frame] calls on a new encoder, every frame
    decoding: a call returns a clip exactly when its timestamp minus
    the window start (the encoder's [clip_start_time], or this very
    timestamp when the buffer was empty) reaches [clip_duration];
    the clips returned carry the indices 0, 1, 2, ... in order; and
    a clip returned at the end of a stretch of calls that starts
    right after the previous clip (or at the first call) and returns
    nothing before its last call holds exactly the frames of that
    stretch. *)
Theorem add_frame_clip_per_window (d fps0 : Z) (calls : list (bytes * Z)) :
  decodable calls →
  let enc0 := init d fps0 in
  let outs := (add_frames enc0 calls).2 in
  length outs = length calls ∧
  (∀ (i : nat) b ts, calls !! i = Some (b, ts) →
     let before := (add_frames enc0 (take i calls)).1 in
     is_Some (mjoin (outs !! i)) ↔
     d ≤ ts - default ts (clip_start_time before)) ∧
  result_index <$> omap id outs =
    seqZ 0 (Z.of_nat (length (omap id outs))) ∧
  (∀ pre seg post c,
     calls = pre ++ seg ++ post →
     (pre = [] ∨ ∃ c0, last (take (length pre) outs) = Some (Some c0)) →
     take (length seg) (drop (length pre) outs) =
       replicate (length seg - 1) None ++ [Some c] →
     clip_frames c = decoded seg).
Proof.
  intros Hdec enc0 outs. split; [apply add_frames_length|].
  split; [|split].
  - intros i b ts Hi before. subst outs.
    rewrite (add_frames_lookup enc0 calls i b ts Hi). cbn. fold before.
    assert (clip_duration before = d) as Hd.
    { subst before. by rewrite add_frames_duration. }
    assert (is_Some (imdecode b)) as [f Hf].
    { eapply (Forall_lookup_1 _ _ _ _ Hdec Hi). }
    destruct (add_frame_decodable before b ts f Hf)
      as [(Hle&c&Hr&_)|(Hnle&Hr&_)]; rewrite Hr, Hd in *.
    + split; [done|]. intros _. by eexists.
    + split; [|done]. intros [? ?]. done.
  - apply (add_frames_indices enc0 calls).
  - intros pre seg post c -> Hpre Hseg. subst outs.
    rewrite add_frames_app in Hpre, Hseg. cbn in Hpre, Hseg.
    rewrite add_frames_app in Hseg. cbn in Hseg.
    pose proof (add_frames_length enc0 pre) as Hl1.
    pose proof (add_frames_length (add_frames enc0 pre).1 seg) as Hl2.
    rewrite <- Hl1 in Hpre, Hseg.
    rewrite take_app_length in Hpre. rewrite drop_app_length in Hseg.
    rewrite <- Hl2 in Hseg at 1. rewrite take_app_length in Hseg.
    apply Forall_app in Hdec as [_ Hdec].
    apply Forall_app in Hdec as [Hdec _].
    rewrite (add_frames_segment _ seg c Hdec Hseg).
    assert (frames (add_frames enc0 pre).1 = []) as ->; [|done].
    destruct Hpre as [->|[c0 Hc0]]; [done|].
    by apply (add_frames_last_emits enc0 pre c0).
Qed.

(** C5.  [flush] on an encoder that holds frames returns a clip with
    all of them, whatever the timestamps, and leaves the buffer empty;
    [flush] on an empty buffer returns nothing and leaves the encoder
    as it was. *)
Theorem flush_returns_all_buffered (self : t) :
  (frames self ≠ [] →
     ∃ c, returned (flush self) = Some c ∧
          clip_frames c = (frames self).*1 ∧
          length (clip_frames c) = length (frames self) ∧
          result_index c = clip_index self ∧
          frames (self_after (flush self)) = []) ∧
  (frames self = [] →
     returned (flush self) = None ∧ self_after (flush self) = self ∧
     logged (flush self) = []).
Proof.
  split; intros Hf; unfold flush.
  - rewrite bool_decide_eq_true_2 by (destruct (frames self); [done|cbn; lia]).
    destruct (encode_clip_nonempty self Hf) as (Hs&_&_&_&Hi&Hfr).
    eexists. cbn. repeat split; try done.
    by rewrite Hfr, length_fmap.
  - rewrite Hf. done.
Qed.

End WithCodec.

Lemma add_frame_clip_per_window_witness :
  let calls := [(Sample.jpeg Byte.x01, 0); (Sample.jpeg Byte.x02, 5000000);
                (Sample.jpeg Byte.x03, 10000000);
                (Sample.jpeg Byte.x04, 11000000)] in
  let outs := (@add_frames Sample.codec (init 10000000 24) calls).2 in
  @decodable Sample.codec calls ∧
  length outs = 4%nat ∧
  result_index <$> omap id outs = [0] ∧
  ∃ c, outs !! 2%nat = Some (Some c) ∧
       clip_frames c =
         [Sample.frame Byte.x01; Sample.frame Byte.x02; Sample.frame Byte.x03].
Proof.
  intros calls outs.
  assert (@decodable Sample.codec calls) as Hdec.
  { repeat constructor; by eexists. }
  split; [exact Hdec|].
  destruct (@add_frame_clip_per_window Sample.codec 10000000 24 calls Hdec)
    as (Hlen & _ & Hidx & Hseg).
  split; [exact Hlen|]. split; [exact Hidx|].
  eexists. split; [reflexivity|].
  apply (Hseg [] (take 3 calls) (drop 3 calls)); [reflexivity|by left|reflexivity].
Defined.

Lemma flush_returns_all_buffered_witness :
  let full :=
    {| clip_duration := 10000000; fps := 24;
       frames := [(Sample.frame Byte.x01, 0); (Sample.frame Byte.x02, 40000)];
       clip_start_time := Some 0; clip_index := 3 |} in
  (∃ c, returned (flush full) = Some c ∧
        clip_frames c = [Sample.frame Byte.x01; Sample.frame Byte.x02] ∧
        length (clip_frames c) = 2%nat ∧ result_index c = 3 ∧
        frames (self_after (flush full)) = []) ∧
  (returned (flush (init 10000000 24)) = None ∧
   self_after (flush (init 10000000 24)) = init 10000000 24 ∧
   logged (flush (init 10000000 24)) = []).
Proof.
  intros full. split.
  - apply (flush_returns_all_buffered full). done.
  - apply (flush_returns_all_buffered (init 10000000 24)). done.
Defined.

End ClipEncoderFacts.

(** ** The message router *)

Module RouterFacts.

(** A loop that has gone through its first answers without finishing
    goes on with the rest. *)
Lemma loop_app {S E} (body : E → M S control) (l1 l2 : list E) s s1 evs :
  loop body l1 s = Returns s1 Waiting evs →
  loop body (l1 ++ l2) s =
    match loop body l2 s1 with
    | Returns s2 st evs2 => Returns s2 st (evs ++ evs2)
    | Raises s2 e evs2 => Raises s2 e (evs ++ evs2)
    end.
Proof.
  revert s evs. induction l1 as [|x l1 IH]; intros s evs Hl.
  - cbn in Hl. injection Hl as <- <-. cbn. by destruct (loop body l2 s).
  - cbn in *. unfold mbind, M_bind in *.
    destruct (body x s) as [s' c evs'|]; [|done].
    destruct c.
    + destruct (loop body l1 s') as [s'' st evs''|] eqn:Hloop; [|done].
      injection Hl as -> -> <-.
      rewrite (IH s' evs'' Hloop).
      destruct (loop body l2 s1); by rewrite app_assoc.
    + cbn in Hl. done.
Qed.

Lemma router_waiting rs s s1 evs :
  message_router rs s = Returns s1 Waiting evs →
  loop message_router_iter rs s = Returns s1 Waiting evs.
Proof.
  unfold message_router.
  destruct (loop message_router_iter rs s) as [|? [] ?]; done.
Qed.

(** C3, as the code has it.  A frame that is not a JSON object makes
    the router raise at that frame: the frames before it have been
    routed, the error leaves the coroutine as [JSONDecodeError] or
    [AttributeError], nothing is logged for the frame, no poison pill is
    enqueued and no later frame is received. *)
Theorem malformed_message_raises (before after : list received)
    (d : wire_text) (s s1 : Session) (evs : list event) :
  malformed d = true →
  message_router before s = Returns s1 Waiting evs →
  message_router (before ++ Text d :: after) s
    = Raises s1 (malformed_error d) evs.
Proof.
  intros Hd Hb. apply router_waiting in Hb.
  unfold message_router. rewrite (loop_app _ _ _ _ _ _ Hb).
  assert (loop message_router_iter (Text d :: after) s1
          = Raises s1 (malformed_error d) []) as ->.
  { destruct d as [raw|[]]; try done. }
  rewrite app_nil_r. by destruct d.
Qed.

Lemma malformed_message_raises_witness :
  message_router
    ([Text (JsonText (JObj Example.image_msg))]
       ++ Text (JsonText (JArr [])) :: [Disconnected]) Example.session
  = Raises (state_of (message_router
                        [Text (JsonText (JObj Example.image_msg))]
                        Example.session))
           AttributeError
           [logev INFO "[Router] Msg #{}: type={}" [AInt 1; AJson (JStr "")]].
Proof.
  apply (malformed_message_raises
           [Text (JsonText (JObj Example.image_msg))] [Disconnected]
           (JsonText (JArr [])) Example.session); reflexivity.
Defined.

(** C3 as stated fails: after a frame that does not parse the router
    has terminated with the error, without a log record; the image
    message behind it, which alone would be routed, is never enqueued. *)
Lemma malformed_message_stops_router :
  let rs := [Text (NotJson "{oops");
             Text (JsonText (JObj Example.image_msg))] in
  let o := message_router rs Example.session in
  raised o = Some JSONDecodeError ∧
  value_of o = None ∧
  events_of o = [] ∧
  image_queue (state_of o) = [] ∧
  image_queue (state_of (message_router (drop 1 rs) Example.session))
    = [Some Example.image_msg].
Proof. repeat split; reflexivity. Qed.

End RouterFacts.

(** ** The audio lane *)

Module AudioFacts.

(** C2, as the code has it.  On a stop-stream message the audio
    processor logs the stop and goes on with its loop; the session,
    with the Deepgram connection and its running flag, is left exactly
    as it was. *)
Theorem stop_message_leaves_session `{Codec} (a : audio_answers)
    (msg : gmap string json) (s : Session) :
  is_str (dict_get msg "type") "audio_stream_stop" = true →
  audio_processor_iter a (Some msg) s
    = Returns s Continue
        [logev INFO "[Audio] Stream stopped by client (processed {} chunks)"
           [AInt (chunk_count s)]].
Proof. intros Hstop. unfold audio_processor_iter. by rewrite Hstop. Qed.

Lemma stop_message_leaves_session_witness :
  @audio_processor_iter Sample.codec {| send_media_ok := true |}
    (Some Example.stop_msg) Example.session
  = Returns Example.session Continue
      [logev INFO "[Audio] Stream stopped by client (processed {} chunks)"
         [AInt 0]].
Proof.
  apply (@stop_message_leaves_session Sample.codec). reflexivity.
Defined.

(** C2 as stated fails: with a transcription session active, the stop
    message is dequeued, the session is still active afterwards, and
    the audio chunk behind it is still sent to Deepgram. *)
Lemma stop_message_does_not_end_transcription :
  let s := set_audio_queue [Some Example.stop_msg; Some Example.audio_msg]
             Example.session in
  let o := @audio_processor Sample.codec
             [{| send_media_ok := true |}; {| send_media_ok := true |}] s in
  deepgram_connection s = true ∧ deepgram_running s = true ∧
  deepgram_connection (state_of o) = true ∧
  deepgram_running (state_of o) = true ∧
  events_of o =
    [logev INFO "[Audio] Stream stopped by client (processed {} chunks)"
       [AInt 0];
     EvDeepgramSend [Byte.x00; Byte.x00; Byte.x00; Byte.x00]].
Proof. repeat split; reflexivity. Qed.

End AudioFacts.

(** ** The video lane *)

Module ImageFacts.
Import ClipEncoder.

Section WithCodec.
Context `{Codec}.

(** C6.  On the poison pill the video lane flushes the encoder, puts the
    clip that comes out, if any, on the upload queue, puts the upload
    queue's own poison pill behind it and leaves its loop.  A buffer that
    holds frames always gives such a clip, with all of them; and when no
    pill was on the upload queue before, the pill is its last item
    afterwards, so nothing the video lane has queued comes after it. *)
Theorem sentinel_flushes_before_upload_sentinel (a : image_answers)
    (s : Session) :
  let r := flush (clip_encoder s) in
  let o := image_processor_iter a None s in
  value_of o = Some Break ∧
  clip_encoder (state_of o) = self_after r ∧
  upload_queue (state_of o)
    = upload_queue s
        ++ match returned r with Some c => [Some c] | None => [] end
        ++ [None] ∧
  (frames (clip_encoder s) ≠ [] →
     ∃ c, clip_frames c = (frames (clip_encoder s)).*1 ∧
          upload_queue (state_of o) = upload_queue s ++ [Some c; None]) ∧
  (None ∉ upload_queue s →
     ∃ items, upload_queue (state_of o) = items ++ [None] ∧ None ∉ items).
Proof.
  intros r o. subst o. unfold image_processor_iter. run. fold r.
  assert (frames (clip_encoder s) ≠ [] →
          ∃ c, returned r = Some c ∧
               clip_frames c = (frames (clip_encoder s)).*1) as Hfull.
  { intros Hf. subst r. unfold flush.
    rewrite bool_decide_eq_true_2
      by (destruct (frames (clip_encoder s)); [done|cbn; lia]).
    destruct (ClipEncoderFacts.encode_clip_nonempty _ Hf) as (_&_&_&_&_&Hfr).
    eexists. by split. }
  destruct (returned r) as [c|] eqn:Hr; cbn.
  - repeat split; [by rewrite <- app_assoc| |].
    + intros Hf. destruct (Hfull Hf) as (c'&Hc'&Hc).
      injection Hc' as <-. exists c. by rewrite <- app_assoc.
    + intros Hq. exists (upload_queue s ++ [Some c]). split; [done|].
      rewrite elem_of_app, list_elem_of_singleton. naive_solver.
  - repeat split.
    + intros Hf. by destruct (Hfull Hf) as (c'&?&_).
    + intros Hq. by exists (upload_queue s).
Qed.

End WithCodec.

Lemma sentinel_flushes_before_upload_sentinel_witness :
  let s := set_clip_encoder
             {| clip_duration := 10000000; fps := 24;
                frames := [(Sample.frame Byte.x01, 0);
                           (Sample.frame Byte.x02, 40000)];
                clip_start_time := Some 0; clip_index := 0 |}
             Example.session in
  let o := @image_processor_iter Sample.codec
             {| now := 0;
                vision := {| MoondreamProcessor.model_ok := true;
                             MoondreamProcessor.query_answer := None;
                             MoondreamProcessor.now_iso := "";
                             MoondreamProcessor.mem0_answers := Example.mem0_ok |};
                send_text_ok := true |} None s in
  (∃ c, clip_frames c = [Sample.frame Byte.x01; Sample.frame Byte.x02] ∧
        upload_queue (state_of o) = [Some c; None]) ∧
  (∃ items, upload_queue (state_of o) = items ++ [None] ∧ None ∉ items).
Proof.
  intros s o.
  destruct (@sentinel_flushes_before_upload_sentinel Sample.codec
              {| now := 0;
                 vision := {| MoondreamProcessor.model_ok := true;
                              MoondreamProcessor.query_answer := None;
                              MoondreamProcessor.now_iso := "";
                              MoondreamProcessor.mem0_answers := Example.mem0_ok |};
                 send_text_ok := true |} s) as (_ & _ & _ & Hfull & Hlast).
  split; [apply Hfull; done|apply Hlast; apply not_elem_of_nil].
Defined.

End ImageFacts.

(** ** The upload pipeline *)

Module UploadFacts.
Import ClipEncoder.

Lemma unconfigured_item (a : upload_answers) (item : ClipResult) (s : Session) :
  bucket_configured s = false →
  upload_processor_iter a (Some item) s
    = Returns s Continue [processing_log item; skipping_log item].
Proof.
  unfold bucket_configured, upload_processor_iter. intros Hb. run.
  by rewrite Hb.
Qed.

Lemma consume_unconfigured (envs : list upload_answers) (s : Session) :
  bucket_configured s = false →
  let o := consume upload_queue set_upload_queue upload_processor_iter envs s in
  raised o = None ∧
  storage_requests (events_of o) = [] ∧
  current_clip_metadata (state_of o) = current_clip_metadata s ∧
  ∃ taken, upload_queue s = taken ++ upload_queue (state_of o) ∧
           logged_at WARNING (events_of o)
             = (λ item, log WARNING
                          "[Upload] Skipping clip {} - no S3 bucket configured"
                          [AInt (result_index item)]) <$> omap id taken.
Proof.
  revert s. induction envs as [|e rest IH]; intros s Hb.
  { cbn. repeat split. by exists []. }
  cbn. run. destruct (upload_queue s) as [|[item|] q] eqn:Hq.
  - cbn. repeat split. by exists [].
  - pose proof (unconfigured_item e item (set_upload_queue q s) Hb) as Hi.
    unfold upload_processor_iter in Hi. run. rewrite Hi. clear Hi.
    destruct (IH (set_upload_queue q s) Hb) as (Hr & Hs & Hm & taken & Ht & Hw).
    run.
    destruct (consume _ _ _ rest _) as [s2 st evs|s2 ex evs]; cbn in *;
      [|done].
    repeat split; try done.
    exists (Some item :: taken). cbn. by rewrite <- Ht, Hw.
  - cbn. repeat split. by exists [None].
Qed.

(** C7, as the code has it.  With no bucket configured the startup check
    logs one warning; the configuration is read again for every item
    taken from the queue, and each item taken while no bucket is
    configured is dropped at once with a warning of its own.  Over a
    whole run no S3 put and no database commit is requested, the shared
    clip metadata is untouched, and the warnings are the startup one and
    one per clip taken. *)
Theorem unconfigured_bucket_drops_each_item (s : Session) :
  bucket_configured s = false →
  upload_processor_start s
    = Returns s ()
        [logev WARNING
           "[Upload] S3_BUCKET_NAME not configured - clips will NOT be stored!"
           []] ∧
  (∀ a item,
     upload_processor_iter a (Some item) s
       = Returns s Continue [processing_log item; skipping_log item]) ∧
  (∀ envs,
     let o := upload_processor envs s in
     raised o = None ∧
     storage_requests (events_of o) = [] ∧
     current_clip_metadata (state_of o) = current_clip_metadata s ∧
     ∃ taken,
       upload_queue s = taken ++ upload_queue (state_of o) ∧
       length (logged_at WARNING (events_of o))
         = S (length (omap id taken))).
Proof.
  intros Hb. split; [|split].
  - unfold upload_processor_start. unfold bucket_configured in Hb. run.
    by rewrite Hb.
  - intros a item. by apply unconfigured_item.
  - intros envs o.
    assert (o = match consume upload_queue set_upload_queue
                        upload_processor_iter envs s with
                | Returns s2 st evs =>
                    Returns s2 st
                      (logev WARNING
                         "[Upload] S3_BUCKET_NAME not configured - clips will NOT be stored!"
                         [] :: evs)
                | Raises s2 ex evs =>
                    Raises s2 ex
                      (logev WARNING
                         "[Upload] S3_BUCKET_NAME not configured - clips will NOT be stored!"
                         [] :: evs)
                end) as ->.
    { subst o. unfold upload_processor, upload_processor_start.
      unfold bucket_configured in Hb. run. rewrite Hb. cbn.
      by destruct (consume _ _ _ envs s). }
    destruct (consume_unconfigured envs s Hb) as (Hr & Hs & Hm & taken & Ht & Hw).
    destruct (consume _ _ _ envs s) as [s2 st evs|s2 ex evs]; cbn in *; [|done].
    split; [done|]. split; [done|]. split; [done|].
    exists taken. split; [done|]. by rewrite Hw, length_fmap.
Qed.

Lemma unconfigured_bucket_drops_each_item_witness :
  let s := set_upload_queue [Some (Example.clip 0); Some (Example.clip 1); None]
             Example.session in
  let o := upload_processor [Example.all_ok; Example.all_ok; Example.all_ok] s in
  bucket_configured s = false ∧
  raised o = None ∧
  storage_requests (events_of o) = [] ∧
  current_clip_metadata (state_of o) = None ∧
  ∃ taken,
    upload_queue s = taken ++ upload_queue (state_of o) ∧
    length (logged_at WARNING (events_of o)) = S (length (omap id taken)).
Proof.
  intros s o. split; [reflexivity|].
  destruct (unconfigured_bucket_drops_each_item s) as (_ & _ & Hrun);
    [reflexivity|].
  apply (Hrun [Example.all_ok; Example.all_ok; Example.all_ok]).
Defined.

(** C7 as stated fails on "checked once at startup, not per item".  The
    configuration is read again for each item: two clips give three
    warnings about the missing bucket, and a clip taken after a bucket
    name has appeared is uploaded although none was configured when the
    processor started. *)
Lemma bucket_is_checked_per_item :
  let s := set_upload_queue [Some (Example.clip 0); Some (Example.clip 1); None]
             Example.session in
  let o := upload_processor [Example.all_ok; Example.all_ok; Example.all_ok] s in
  bucket_configured s = false ∧
  logged_at WARNING (events_of o)
    = [log WARNING
         "[Upload] S3_BUCKET_NAME not configured - clips will NOT be stored!" [];
       log WARNING "[Upload] Skipping clip {} - no S3 bucket configured" [AInt 0];
       log WARNING "[Upload] Skipping clip {} - no S3 bucket configured" [AInt 1]] ∧
  let started := state_of (upload_processor_start Example.session) in
  let later := set_s3_manager Example.s3_configured started in
  let o' := upload_processor_iter Example.all_ok (Some (Example.clip 0)) later in
  bucket_configured started = false ∧
  length (storage_requests (events_of o')) = 3%nat ∧
  logged_at WARNING (events_of o') = [] ∧
  current_clip_metadata (state_of o')
    = Some {| s3_key := ClipKey "vc_1" 0; s3_bucket := Some "clips";
              md_start_time := IsoFormat 0; md_end_time := IsoFormat 9000000 |}.
Proof. repeat split; reflexivity. Qed.

(** C8.  For every item the upload pipeline takes, the loop goes on.
    When the bucket is configured and the video upload, the thumbnail
    upload (for a clip that has a thumbnail) and the database commit all
    succeed, the requests made were, in this order, the video put, the
    thumbnail put if any, and the commit, and the shared clip metadata is
    then the metadata of this clip.  In every other case the shared
    metadata keeps the value it had, and an item that was not dropped for
    a missing bucket ends with the error record "Failed for clip". *)
Theorem metadata_updated_after_all_steps (a : upload_answers)
    (item : ClipResult) (s : Session) :
  let o := upload_processor_iter a (Some item) s in
  value_of o = Some Continue ∧
  if bucket_configured s && video_upload_ok s a
     && thumbnail_upload_ok a item && record_commit_ok a item
  then
    let bucket := S3Manager.bucket_name (s3_manager s) in
    let key := ClipKey (session_id s) (result_index item) in
    current_clip_metadata (state_of o)
      = Some {| s3_key := key; s3_bucket := bucket;
                md_start_time := start_time item;
                md_end_time := end_time item |} ∧
    ∃ start stop,
      start_time item = IsoFormat start ∧ end_time item = IsoFormat stop ∧
      storage_requests (events_of o)
        = EvS3Put bucket key (BodyVideo (video_bytes item)) "video/mp4"
          :: match thumbnail_bytes item with
             | [] => []
             | _ :: _ =>
                 [EvS3Put bucket
                    (ThumbKey (session_id s) (result_index item))
                    (BodyImage (thumbnail_bytes item)) "image/jpeg"]
             end
          ++ [EvDbCommit
                {| row_session_id := session_id s;
                   row_clip_index := result_index item;
                   row_s3_key := key; row_s3_bucket := bucket;
                   row_start_time := start; row_end_time := stop;
                   row_thumbnail_s3_key :=
                     match thumbnail_bytes item with
                     | [] => None
                     | _ :: _ =>
                         Some (ThumbKey (session_id s) (result_index item))
                     end |}]
  else
    current_clip_metadata (state_of o) = current_clip_metadata s ∧
    (bucket_configured s = true →
     last (events_of o) = Some (failed_log item)).
Proof.
  intros o. subst o.
  unfold bucket_configured, video_upload_ok, thumbnail_upload_ok,
    record_commit_ok, upload_processor_iter, s3, S3Manager.upload_clip,
    S3Manager.upload_thumbnail, S3Manager.put_object, S3Manager._get_client,
    fromisoformat, create_video_clip.
  destruct s as [sid aq iq uq tb cb c1 c2 c3 c4 enc meta dc dr
                 [cl bucket reg] m0 md cfg mc cc].
  destruct a as [[bc1 po1] [bc2 po2] db].
  destruct item as [video start stop idx thumb].
  destruct bucket as [[|ch bname]|]; [run; by split| |run; by split].
  destruct cl, bc1, po1, thumb as [|b0 thumb], po2, start, stop, db;
    run; (split; [done|]); try (split; [done|]); try done;
    try (intros _; done); by eexists _, _.
Qed.

Lemma metadata_updated_after_all_steps_witness :
  let s := set_current_clip_metadata None
             (set_s3_manager Example.s3_configured Example.session) in
  let db_down :=
    {| clip_put := clip_put Example.all_ok;
       thumbnail_put := thumbnail_put Example.all_ok;
       db_commit_ok := false |} in
  let good := upload_processor_iter Example.all_ok (Some (Example.clip 0)) s in
  let bad := upload_processor_iter db_down (Some (Example.clip 0)) s in
  current_clip_metadata (state_of good)
    = Some {| s3_key := ClipKey "vc_1" 0; s3_bucket := Some "clips";
              md_start_time := IsoFormat 0; md_end_time := IsoFormat 9000000 |} ∧
  (current_clip_metadata (state_of bad) = None ∧
   last (events_of bad) = Some (failed_log (Example.clip 0))).
Proof.
  intros s db_down good bad. split.
  - apply (metadata_updated_after_all_steps Example.all_ok (Example.clip 0) s).
  - destruct (metadata_updated_after_all_steps db_down (Example.clip 0) s)
      as [_ [Hkeep Hlog]].
    split; [exact Hkeep|]. apply Hlog. reflexivity.
Defined.

End UploadFacts.

(** ** The annotation batcher *)

Module BatcherFacts.

#[local] Arguments speaker_str : simpl never.
#[local] Arguments String.concat : simpl never.
#[local] Arguments String.substring : simpl never.
#[local] Arguments String.append : simpl never.
#[local] Arguments last : simpl never.
#[local] Arguments combined_caption : simpl never.
#[local] Arguments combined_transcript : simpl never.
#[local] Arguments last_clip : simpl never.
#[local] Arguments Mem0Manager.first50 : simpl never.
#[local] Arguments Mem0Manager.caption_content : simpl never.
#[local] Arguments Mem0Manager.transcript_content : simpl never.

(** One speaker in the whole batch: the set of speakers has that one
    element. *)
Lemma speaker_str_single (batch : list Transcript) (sp : string) :
  batch ≠ [] →
  (∀ t, t ∈ batch → tr_speaker t = sp) →
  speaker_str batch = sp.
Proof.
  intros Hne Hall. unfold speaker_str.
  assert ((list_to_set (tr_speaker <$> batch) : gset string) = {[ sp ]}) as ->.
  { apply set_eq. intros x. rewrite elem_of_list_to_set, list_elem_of_fmap.
    rewrite elem_of_singleton. split.
    - intros (t & -> & Ht). by apply Hall.
    - intros ->. destruct batch as [|t batch]; [done|].
      exists t. split; [symmetry; apply Hall|]; apply list_elem_of_here. }
  by rewrite elements_singleton.
Qed.

(** Two speakers in the batch: the set of speakers has not one element. *)
Lemma speaker_str_multiple (batch : list Transcript) (t1 t2 : Transcript) :
  t1 ∈ batch → t2 ∈ batch → tr_speaker t1 ≠ tr_speaker t2 →
  speaker_str batch = "multiple".
Proof.
  intros H1 H2 Hne. unfold speaker_str.
  rewrite bool_decide_eq_false_2; [done|].
  intros Hlen.
  assert (size (list_to_set (tr_speaker <$> batch) : gset string) = 1%nat)
    as Hsize by done.
  apply Hne.
  apply (size_singleton_inv _ _ _ Hsize);
    rewrite elem_of_list_to_set, list_elem_of_fmap; eauto.
Qed.

Lemma mem0_adds_app evs1 evs2 :
  mem0_adds (evs1 ++ evs2) = mem0_adds evs1 ++ mem0_adds evs2.
Proof. apply omap_app. Qed.

Lemma mem0_adds_log r evs : mem0_adds (EvLog r :: evs) = mem0_adds evs.
Proof. done. Qed.

Lemma mem0_adds_send m evs : mem0_adds (EvWsSend m :: evs) = mem0_adds evs.
Proof. done. Qed.

Lemma mem0_adds_nil : mem0_adds [] = [].
Proof. done. Qed.

#[local] Arguments mem0_adds : simpl never.

(** Runs the monad operations of the goal and tidies the [client.add]
    calls among the events. *)
Ltac run_goal :=
  repeat (unfold mbind, M_bind, mret, M_ret, gets, modify, emit, emit_logs,
            raise, put, when, try_except, on_field, logev; cbn);
  rewrite ?mem0_adds_app, ?mem0_adds_log, ?mem0_adds_send, ?mem0_adds_nil,
    ?app_nil_r; cbn [app].

Ltac store_cases m cfg a :=
  destruct m as [[] []], cfg as [[[|? ?]|] ?], a as [[] []];
  run; (split; [intros ?|split; [intros ? ?|]]);
  first [done | by left | by right].

Lemma store_transcript_spec cfg a tr m :
  store_spec m (Mem0Manager.store_transcript cfg a tr m)
    (Mem0Manager.transcript_content tr) (MetaTranscript tr).
Proof.
  unfold store_spec, Mem0Manager.store_transcript, Mem0Manager._get_client,
    Mem0Manager.client_add.
  store_cases m cfg a.
Qed.

Lemma store_caption_with_clip_spec cfg a c clip m :
  store_spec m (Mem0Manager.store_caption_with_clip cfg a c clip m)
    (Mem0Manager.caption_content c) (MetaCaption c clip).
Proof.
  unfold store_spec, Mem0Manager.store_caption_with_clip,
    Mem0Manager._get_client, Mem0Manager.client_add.
  store_cases m cfg a.
Qed.

Lemma store_caption_spec cfg a c m :
  store_spec m (Mem0Manager.store_caption cfg a c m)
    (Mem0Manager.caption_content c) (MetaCaption c None).
Proof.
  unfold store_spec, Mem0Manager.store_caption,
    Mem0Manager._get_client, Mem0Manager.client_add.
  store_cases m cfg a.
Qed.

#[local] Arguments Mem0Manager.store_transcript : simpl never.
#[local] Arguments Mem0Manager.store_caption_with_clip : simpl never.
#[local] Arguments Mem0Manager.store_caption : simpl never.

Lemma tick_adds (a : flush_answers) (s : Session) :
  let o := mem0_batch_tick a s in
  transcript_batch (state_of o) = [] ∧ caption_batch (state_of o) = [] ∧
  (mem0_adds (events_of o) = [] ∨
   mem0_adds (events_of o)
     = transcript_add (session_id s) (transcript_batch s)
         ++ caption_add (caption_batch s)) ∧
  (Mem0Manager._client (mem0_manager s) = true →
   mem0_adds (events_of o)
     = transcript_add (session_id s) (transcript_batch s)
         ++ caption_add (caption_batch s) ∧
   raised o = None).
Proof.
  intros o. subst o.
  unfold mem0_batch_tick, mem0, transcript_add, caption_add.
  destruct s as [sid aq iq uq tb cb c1 c2 c3 c4 enc meta dc dr
                 s3m m0 md cfg mc cc].
  destruct tb as [|t tb]; destruct cb as [|c cb];
  try (destruct (last (c :: cb)) as [final|] eqn:Hlast;
       [|by apply last_None in Hlast]); run_goal.
  - auto.
  - pose proof (store_caption_with_clip_spec cfg (caption_store a)
                  (combined_caption c (c :: cb)) (last_clip c (c :: cb)) m0)
      as (Hc1 & _ & Hc2).
    unfold combined_caption, last_clip in *. rewrite Hlast in *.
    destruct (Mem0Manager.store_caption_with_clip _ _ _ _ m0)
      as [m1 b1 e1|m1 x1 e1]; run_goal; cbn in Hc1, Hc2;
      intuition congruence.
  - pose proof (store_transcript_spec cfg (transcript_store a)
                  (combined_transcript sid t (t :: tb)) m0) as (Ht1 & _ & Ht2).
    unfold combined_transcript in *.
    destruct (Mem0Manager.store_transcript _ _ _ m0)
      as [m1 b1 e1|m1 x1 e1]; run_goal; cbn in Ht1, Ht2;
      intuition congruence.
  - pose proof (store_transcript_spec cfg (transcript_store a)
                  (combined_transcript sid t (t :: tb)) m0) as (Ht1 & _ & Ht2).
    unfold combined_transcript in *.
    destruct (Mem0Manager.store_transcript _ _ _ m0)
      as [m1 b1 e1|m1 x1 e1]; run_goal; cbn in Ht1, Ht2;
      [|intuition congruence].
    pose proof (store_caption_with_clip_spec cfg (caption_store a)
                  (combined_caption c (c :: cb)) (last_clip c (c :: cb)) m1)
      as (Hc1 & Hc3 & Hc2).
    unfold combined_caption, last_clip in *. rewrite Hlast in *.
    destruct (Mem0Manager.store_caption_with_clip _ _ _ _ m1)
      as [m2 b2 e2|m2 x2 e2]; run_goal; cbn in Hc1, Hc2, Hc3.
    + split; [done|]. split; [done|].
      destruct Ht2 as [(He1 & Hcl & Hatt)|(He1 & Hcl & _)].
      * destruct (Hc3 Hcl Hatt) as (_ & _ & He2). rewrite He1, He2.
        split; [by left|]. intros Hm0. destruct (Ht1 Hm0) as (_ & _ & ?).
        congruence.
      * destruct (Hc1 Hcl) as (_ & _ & He2). rewrite He1, He2.
        split; [by right|]. done.
    + split; [done|]. split; [done|].
      destruct Ht2 as [(He1 & Hcl & Hatt)|(He1 & Hcl & _)].
      * by destruct (Hc3 Hcl Hatt) as (_ & ? & _).
      * by destruct (Hc1 Hcl) as (_ & ? & _).
Qed.

(** C9.  One timer flush.  The [client.add] calls it makes are, in
    order, one for the transcript batch if it is not empty and one for the
    caption batch if it is not empty: the transcript record has the texts
    joined with single spaces and the speaker of [speaker_str], which is
    the one speaker of the batch when all entries have the same and
    "multiple" when two differ; the caption record has the descriptions
    joined with " | ", the timestamp of the first caption, the frame
    number of the last and the clip metadata of the last.  With a Mem0
    client at hand both calls are made; without one (or when its creation
    fails) none is.  On two empty batches nothing happens but a debug
    record.  Afterwards both batches are empty. *)
Theorem timer_flush_coalesces (a : flush_answers) (s : Session) :
  let ts := transcript_batch s in
  let cs := caption_batch s in
  let o := mem0_batch_tick a s in
  (mem0_adds (events_of o) = [] ∨
   mem0_adds (events_of o) = transcript_add (session_id s) ts ++ caption_add cs) ∧
  (Mem0Manager._client (mem0_manager s) = true →
   mem0_adds (events_of o) = transcript_add (session_id s) ts ++ caption_add cs ∧
   raised o = None) ∧
  (∀ sp, ts ≠ [] → (∀ t, t ∈ ts → tr_speaker t = sp) → speaker_str ts = sp) ∧
  (∀ t1 t2, t1 ∈ ts → t2 ∈ ts → tr_speaker t1 ≠ tr_speaker t2 →
            speaker_str ts = "multiple") ∧
  (ts = [] → cs = [] →
   o = Returns s Continue [logev DEBUG "[Mem0] No data to batch push" []]) ∧
  transcript_batch (state_of o) = [] ∧ caption_batch (state_of o) = [].
Proof.
  intros ts cs o.
  destruct (tick_adds a s) as (Ht & Hc & Hany & Hready).
  split; [done|]. split; [done|].
  split; [intros sp; apply speaker_str_single|].
  split; [apply speaker_str_multiple|].
  split; [|done].
  subst ts cs o. intros Hts Hcs. unfold mem0_batch_tick.
  destruct s. cbn in Hts, Hcs. subst. by run_goal.
Qed.

Lemma timer_flush_coalesces_witness :
  let s := set_caption_batch [Example.seen 1 "a desk"; Example.seen 2 "a door"]
             (set_transcript_batch
                [Example.utterance "Speaker 0" "hello";
                 Example.utterance "Speaker 1" "hi there"]
                Example.session) in
  let o := mem0_batch_tick Example.flush_ok s in
  mem0_adds (events_of o)
    = [("At 2025-01-01T00:00:00, multiple said: hello hi there",
        MetaTranscript
          {| tr_timestamp := "2025-01-01T00:00:00"; tr_speaker := "multiple";
             tr_text := "hello hi there"; tr_session_id := "vc_1" |});
       ("At 2025-01-01T00:00:01, I observed: a desk | a door",
        MetaCaption
          {| timestamp := "2025-01-01T00:00:01";
             description := "a desk | a door"; frame_number := 20 |} None)] ∧
  raised o = None.
Proof.
  intros s o.
  destruct (timer_flush_coalesces Example.flush_ok s) as (_ & Hready & _).
  apply Hready. reflexivity.
Defined.

Lemma flush_keeps_batches (a : flush_answers) (s : Session) :
  let o := flush_mem0_batch a s in
  transcript_batch (state_of o) = transcript_batch s ∧
  caption_batch (state_of o) = caption_batch s.
Proof.
  intros o. subst o. unfold flush_mem0_batch, mem0.
  destruct s as [sid aq iq uq tb cb c1 c2 c3 c4 enc meta dc dr
                 s3m m0 md cfg mc cc].
  destruct tb as [|t tb]; destruct cb as [|c cb]; run_goal; try done.
  - by destruct (Mem0Manager.store_caption_with_clip _ _ _ _ m0).
  - by destruct (Mem0Manager.store_transcript _ _ _ m0).
  - destruct (Mem0Manager.store_transcript _ _ _ m0) as [m1 ? ?|]; [|done].
    run_goal. by destruct (Mem0Manager.store_caption_with_clip _ _ _ _ m1).
Qed.

(** C1, on the code.  One utterance is batched and the Mem0 client is at
    hand.  The teardown flush makes its [client.add] call and leaves the
    batch as it was, so a second teardown flush makes the same call
    again; the timer flush, on the same session, empties the batch and a
    second one makes no call. *)
Theorem teardown_flush_twice_persists_twice :
  let s := set_transcript_batch [Example.utterance "Speaker 0" "hello"]
             Example.session in
  let first := flush_mem0_batch Example.flush_ok s in
  let second := flush_mem0_batch Example.flush_ok (state_of first) in
  transcript_batch (state_of first) = transcript_batch s ∧
  length (mem0_adds (events_of first)) = 1%nat ∧
  mem0_adds (events_of second) = mem0_adds (events_of first) ∧
  mem0_transcript_requests (state_of second) = 2 ∧
  let tick := mem0_batch_tick Example.flush_ok s in
  transcript_batch (state_of tick) = [] ∧
  mem0_adds (events_of tick) = mem0_adds (events_of first) ∧
  mem0_adds (events_of (mem0_batch_tick Example.flush_ok (state_of tick))) = [].
Proof. repeat split; reflexivity. Qed.

End BatcherFacts.

(** ** Captions and the memory store *)

Module CaptionFacts.
Import BatcherFacts MoondreamProcessor.

#[local] Arguments speaker_str : simpl never.
#[local] Arguments String.concat : simpl never.
#[local] Arguments String.substring : simpl never.
#[local] Arguments String.append : simpl never.
#[local] Arguments last : simpl never.
#[local] Arguments Mem0Manager.first50 : simpl never.
#[local] Arguments Mem0Manager.caption_content : simpl never.
#[local] Arguments Mem0Manager.store_caption : simpl never.
#[local] Arguments mem0_adds : simpl never.

Lemma captions_sent_app evs1 evs2 :
  captions_sent (evs1 ++ evs2) = captions_sent evs1 ++ captions_sent evs2.
Proof. apply omap_app. Qed.

Lemma captions_sent_log r evs :
  captions_sent (EvLog r :: evs) = captions_sent evs.
Proof. done. Qed.

Lemma captions_sent_nil : captions_sent [] = [].
Proof. done. Qed.

Lemma captions_sent_logs ls : captions_sent (EvLog <$> ls) = [].
Proof. by induction ls. Qed.

Lemma mem0_adds_logs ls : mem0_adds (EvLog <$> ls) = [].
Proof. by induction ls. Qed.

Lemma store_caption_usable cfg a c m :
  let o := Mem0Manager.store_caption cfg a c m in
  captions_sent (events_of o) = [] ∧
  (mem0_usable m = true → raised o = None →
   mem0_adds (events_of o)
     = [(Mem0Manager.caption_content c, MetaCaption c None)] ∧
   Mem0Manager._client (state_of o) = true).
Proof.
  unfold Mem0Manager.store_caption, Mem0Manager._get_client,
    Mem0Manager.client_add, mem0_usable.
  destruct m as [[] []], cfg as [[[|? ?]|] ?], a as [[] []];
    run; (split; [done|intros ? ?]); done.
Qed.

Lemma captions_sent_add c u m evs :
  captions_sent (EvMem0Add c u m :: evs) = captions_sent evs.
Proof. done. Qed.

Lemma captions_sent_caption c k evs :
  captions_sent (EvWsSend (OutCaption c k) :: evs) = c :: captions_sent evs.
Proof. done. Qed.

Create Rewrite HintDb events.
#[local] Hint Rewrite mem0_adds_app mem0_adds_log mem0_adds_send mem0_adds_nil
  mem0_adds_logs captions_sent_app captions_sent_log captions_sent_nil
  captions_sent_logs captions_sent_add captions_sent_caption
  @app_nil_r : events.

#[local] Arguments captions_sent : simpl never.
#[local] Arguments truthy_opt_str : simpl never.

Section WithCodec.
Context `{Codec}.

Lemma process_frame_spec cfg a image_b64 (st : MoondreamProcessor.t * Mem0Manager.t) :
  let o := MoondreamProcessor.process_frame cfg a image_b64 st in
  raised o = None ∧
  captions_sent (events_of o) = [] ∧
  ∀ c, value_of o = Some (Some c) → mem0_usable st.2 = true →
       mem0_adds (events_of o)
         = [(Mem0Manager.caption_content c, MetaCaption c None)] ∧
       Mem0Manager._client (state_of o).2 = true.
Proof.
  intros o. subst o. unfold process_frame, _get_model.
  destruct st as [md m]. destruct md as [mdl ini hist mh cnt n].
  run_goal. case_bool_decide; run_goal; [by repeat split|].
  destruct (truthy_opt_str (MOONDREAM_API_KEY cfg)); run_goal;
    [|by repeat split].
  destruct (b64decode image_b64) as [image_bytes|]; run_goal;
    [|by repeat split].
  destruct (image_open image_bytes); run_goal; [|by repeat split].
  destruct mdl; [|destruct (model_ok a)]; run_goal;
    try (by repeat split);
    (destruct (query_answer a) as [answer|]; run_goal; [|by repeat split]);
    match goal with
    | |- context [Mem0Manager.store_caption ?c ?ans ?r ?m0] =>
        pose proof (store_caption_usable c ans r m0) as [Hs1 Hs2];
        destruct (Mem0Manager.store_caption c ans r m0) as [m1 b1 e1|m1 x1 e1]
    end; run_goal; cbn in Hs1, Hs2;
    (split; [done|]);
    autorewrite with events; rewrite ?Hs1;
    (split; [done|]); intros c0 Hc0 Hus; try done;
    injection Hc0 as <-; by apply Hs2.
Qed.

#[local] Arguments MoondreamProcessor.process_frame : simpl never.
#[local] Arguments transcript_add : simpl never.
#[local] Arguments caption_add : simpl never.

Lemma buffer_frame_spec (image_bytes : bytes) (ts : Z) (s : Session) :
  ∃ enc' q' evs,
    buffer_frame image_bytes ts s
      = Returns (set_upload_queue q' (set_clip_encoder enc' s)) () evs ∧
    mem0_adds evs = [] ∧ captions_sent evs = [].
Proof.
  unfold buffer_frame. run_goal.
  set (r := ClipEncoder.add_frame (clip_encoder s) image_bytes ts).
  destruct s as [sid aq iq uq tb cb c1 c2 c3 c4 enc meta dc dr
                 s3m m0 md cfg mc cc].
  destruct (ClipEncoder.returned r) as [clip|]; run_goal;
    match goal with |- context [if ?b then _ else _] => destruct b end;
    run_goal; eexists (ClipEncoder.self_after r), _, _;
    (split; [reflexivity|]);
    by autorewrite with events.
Qed.


Lemma caption_add_snoc (batch : list CaptionEntry) (entry : CaptionEntry) :
  caption_add (batch ++ [entry])
    = let record :=
        {| timestamp := timestamp (caption (default entry (head batch)));
           description :=
             String.concat " | "
               (((λ c, description (caption c)) <$> batch)
                  ++ [description (caption entry)]);
           frame_number := frame_number (caption entry) |} in
      [(Mem0Manager.caption_content record,
        MetaCaption record (clip_metadata entry))].
Proof.
  unfold caption_add.
  destruct (batch ++ [entry]) as [|first l] eqn:E; [by destruct batch|].
  assert (first = default entry (head batch)) as ->
    by (destruct batch; by injection E).
  rewrite <- E, last_snoc, fmap_app. done.
Qed.

(** C10.  A caption the video lane sends to the client has gone to the
    memory store inside [process_frame], on its own and without clip
    metadata, and it is in the caption batch; the next timer flush stores
    it again, inside the combined record of the batch, which ends with
    its description and carries its frame number.  With a Mem0 client at
    hand, or one that can still be created, each of the two is a
    [client.add] call: one caption, two memory records. *)
Theorem caption_sent_is_stored_twice (a : image_answers) (b : flush_answers)
    (msg : gmap string json) (s : Session) (c : Caption) :
  let o := image_processor_iter a (Some msg) s in
  c ∈ captions_sent (events_of o) →
  mem0_usable (mem0_manager s) = true →
  let entry := {| caption := c; clip_metadata := current_clip_metadata s |} in
  mem0_adds (events_of o)
    = [(Mem0Manager.caption_content c, MetaCaption c None)] ∧
  caption_batch (state_of o) = caption_batch s ++ [entry] ∧
  let o' := mem0_batch_tick b (state_of o) in
  let record :=
    {| timestamp := timestamp (caption (default entry (head (caption_batch s))));
       description :=
         String.concat " | "
           (((λ e, description (caption e)) <$> caption_batch s)
              ++ [description c]);
       frame_number := frame_number c |} in
  mem0_adds (events_of o')
    = transcript_add (session_id s) (transcript_batch s)
        ++ [(Mem0Manager.caption_content record,
             MetaCaption record (current_clip_metadata s))].
Proof.
  intros o Hsent Husable entry. subst o.
  unfold image_processor_iter in *.
  destruct (truthy (dict_get msg "image")); run; [|by apply elem_of_nil in Hsent].
  destruct (strip_data_url (dict_get msg "image")) as [| | |image_b64| |];
    run; try by apply elem_of_nil in Hsent.
  destruct (b64decode image_b64) as [image_bytes|];
    run; [|by apply elem_of_nil in Hsent].
  destruct (buffer_frame_spec image_bytes (now a) s)
    as (enc' & q' & evs & Hbuf & Hm & Hc).
  rewrite Hbuf in *. clear Hbuf. unfold caption_frame, vision_state in *.
  destruct s as [sid aq iq uq tb cb c1 c2 c3 c4 enc meta dc dr
                 s3m m0 md cfg mc cc].
  run.
  pose proof (process_frame_spec cfg (vision a) image_b64 (md, m0))
    as (Hr & Hcs & Hadd).
  destruct (MoondreamProcessor.process_frame cfg (vision a) image_b64 (md, m0))
    as [[md1 m1] [c'|] evs1|]; [| |done].
  2:{ run. autorewrite with events in Hsent. rewrite Hc, Hcs in Hsent.
      by apply elem_of_nil in Hsent. }
  destruct (Hadd c' eq_refl Husable) as [Hadd1 Hcl]. cbn in Hcs, Hadd1, Hcl.
  assert (c = c') as <-.
  { unfold send_text in Hsent.
    destruct (send_text_ok a); run; autorewrite with events in Hsent;
      rewrite Hc, Hcs in Hsent; cbn in Hsent;
      by apply list_elem_of_singleton in Hsent. }
  clear Hsent Hadd. unfold send_text.
  destruct (send_text_ok a); run; autorewrite with events;
    rewrite Hm, Hadd1; (split; [done|]); (split; [done|]);
    match goal with
    | |- context [mem0_batch_tick b ?st] =>
        destruct (tick_adds b st) as (_ & _ & _ & Hready)
    end;
    (destruct Hready as [-> _]; [exact Hcl|]);
    cbn; by rewrite caption_add_snoc.
Qed.
End WithCodec.

Lemma caption_sent_is_stored_twice_witness :
  let s := set_moondream_processor
             (MoondreamProcessor.with_counter 9 (MoondreamProcessor.init 50))
             Example.session in
  let a := {| now := 0;
              vision := {| MoondreamProcessor.model_ok := true;
                           MoondreamProcessor.query_answer := Some "a desk";
                           MoondreamProcessor.now_iso := "2025-01-01T00:00:09";
                           MoondreamProcessor.mem0_answers := Example.mem0_ok |};
              send_text_ok := true |} in
  let c := {| timestamp := "2025-01-01T00:00:09"; description := "a desk";
              frame_number := 10 |} in
  let o := @image_processor_iter Sample.codec a (Some Example.image_msg) s in
  mem0_adds (events_of o)
    = [("At 2025-01-01T00:00:09, I observed: a desk", MetaCaption c None)] ∧
  caption_batch (state_of o) = [{| caption := c; clip_metadata := None |}] ∧
  mem0_adds (events_of (mem0_batch_tick Example.flush_ok (state_of o)))
    = [("At 2025-01-01T00:00:09, I observed: a desk", MetaCaption c None)].
Proof.
  intros s a c o.
  apply (@caption_sent_is_stored_twice Sample.codec a Example.flush_ok
           Example.image_msg s c).
  - vm_compute. apply list_elem_of_here.
  - reflexivity.
Defined.

End CaptionFacts.

(** ** Runs of the clip encoder *)

Module EncoderRunFacts.
Import ClipEncoder ClipEncoderFacts.

Section WithCodec.
Context `{Codec}.








Lemma encode_clip_thumbnail self :
  frames self ≠ [] → middle_thumbnail (returned (_encode_clip self)).
Proof.
  intros Hne. unfold middle_thumbnail, _encode_clip, clip_frames.
  destruct (frames self) as [|[f0 t0] l] eqn:E; [done|].
  cbn [returned video_bytes thumbnail_bytes].
  rewrite <- E. rewrite length_fmap, list_lookup_fmap.
  assert (is_Some (frames self !! (length (frames self) `div` 2)%nat))
    as [[f t] Hf].
  { apply lookup_lt_is_Some. apply Nat.div_lt; [|lia].
    rewrite E. cbn. lia. }
  rewrite Hf. cbn. by exists f.
Qed.

(** X2.  The thumbnail of every clip [add_frame] or [flush] returns is the
    JPEG of the frame at index [len(frames) // 2] of the frames written
    into the clip: the middle frame, the later of the two for an even
    count. *)
Theorem thumbnail_is_middle_frame (self : t) (c : ClipResult) :
  (∃ b ts, returned (add_frame self b ts) = Some c)
  ∨ returned (flush self) = Some c →
  middle_thumbnail c.
Proof.
  intros [(b & ts & Hr)|Hr].
  - unfold add_frame in Hr. destruct (imdecode b) as [f|]; [|done].
    case_bool_decide; [|done]. cbn in Hr. injection Hr as <-.
    apply encode_clip_thumbnail. cbn. by destruct (frames self).
  - unfold flush in Hr. case_bool_decide as Hlen; [|done].
    cbn in Hr. injection Hr as <-. apply encode_clip_thumbnail.
    intros E. rewrite E in Hlen. cbn in Hlen. lia.
Qed.

Lemma flush_empty self :
  frames self = [] → flush self = Ret self None [].
Proof.
  intros E. unfold flush. rewrite E.
  by rewrite bool_decide_eq_false_2 by (cbn; lia).
Qed.

(** X3.  A second [flush] right after a first returns nothing, logs
    nothing and leaves the encoder as the first left it; the first has
    advanced the clip index by one exactly when frames were buffered. *)
Theorem flush_twice_returns_once (self : t) :
  let once := flush self in
  let twice := flush (self_after once) in
  returned twice = None ∧ self_after twice = self_after once ∧
  logged twice = [] ∧
  clip_index (self_after once)
    = clip_index self + (if decide (frames self = []) then 0 else 1).
Proof.
  intros once twice. subst once twice.
  destruct (decide (frames self = [])) as [E|E].
  - rewrite (flush_empty self E). cbn. rewrite (flush_empty self E). cbn.
    repeat split. lia.
  - destruct (encode_clip_nonempty self E) as (Hf & _ & Hi & _).
    assert (self_after (flush self) = self_after (_encode_clip self)) as ->.
    { unfold flush. rewrite bool_decide_eq_true_2; [done|].
      destruct (frames self); [done|cbn; lia]. }
    by rewrite (flush_empty _ Hf).
Qed.


End WithCodec.


Lemma thumbnail_is_middle_frame_witness :
  let full :=
    {| clip_duration := 10000000; fps := 24;
       frames := [(Sample.frame Byte.x01, 0); (Sample.frame Byte.x02, 40000);
                  (Sample.frame Byte.x03, 80000)];
       clip_start_time := Some 0; clip_index := 3 |} in
  let c := {| video_bytes :=
                Mp4 24 (2, 2) [Sample.frame Byte.x01; Sample.frame Byte.x02;
                               Sample.frame Byte.x03];
              start_time := IsoFormat 0; end_time := IsoFormat 80000;
              result_index := 3; thumbnail_bytes := [Byte.x02] |} in
  returned (flush full) = Some c ∧ middle_thumbnail c.
Proof.
  intros full c. split; [reflexivity|].
  apply (@thumbnail_is_middle_frame Sample.codec full c).
  right. reflexivity.
Defined.

End EncoderRunFacts.

(** ** Routing of well-formed messages *)

Module RoutingFacts.
Import RouterFacts.

Lemma router_iter_object (m : gmap string json) (s : Session) :
  ∃ evs,
    message_router_iter (Text (JsonText (JObj m))) s
    = Returns
        (set_image_queue
           (image_queue s ++ (if to_image m then [Some m] else []))
           (set_audio_queue
              (audio_queue s ++ (if to_audio m then [Some m] else []))
              (set_msg_count (msg_count s + 1) s)))
        Continue evs.
Proof.
  unfold message_router_iter, to_image, to_audio, json_loads.
  destruct s as [sid aq iq uq tb cb c1 c2 c3 c4 enc meta dc dr
                 s3m m0 md cfg mc cc].
  run.
  match goal with |- context [if ?b || ?c then _ else _] =>
    destruct (b || c) end; run;
  match goal with |- context [if ?b then _ else _] =>
    destruct b eqn:Ha end; run;
  try (match goal with |- context [bool_decide ?P] =>
         destruct (bool_decide P) end); run;
  rewrite ?app_nil_r; by eexists.
Qed.

#[local] Arguments to_audio : simpl never.
#[local] Arguments to_image : simpl never.
#[local] Arguments filter : simpl never.

Lemma router_loop_objects (msgs : list (gmap string json)) (s : Session) :
  ∃ evs,
    loop message_router_iter (object_frames msgs) s
    = Returns
        (set_image_queue
           (image_queue s ++ (Some <$> filter (λ m, to_image m) msgs))
           (set_audio_queue
              (audio_queue s ++ (Some <$> filter (λ m, to_audio m) msgs))
              (set_msg_count (msg_count s + Z.of_nat (length msgs)) s)))
        Waiting evs.
Proof.
  revert s. induction msgs as [|m msgs IH]; intros s.
  { exists []. destruct s. cbn. by rewrite !app_nil_r, Z.add_0_r. }
  destruct (router_iter_object m s) as [evs1 Hi].
  cbn [object_frames fmap list_fmap loop]. fold (object_frames msgs).
  unfold mbind at 1. unfold M_bind. rewrite Hi. clear Hi.
  replace (Z.of_nat (length (m :: msgs))) with (1 + Z.of_nat (length msgs))
    by (cbn [length]; lia).
  rewrite Z.add_assoc, !filter_cons.
  destruct s as [sid aq iq uq tb cb c1 c2 c3 c4 enc meta dc dr
                 s3m m0 md cfg mc cc].
  cbn -[Z.add Z.of_nat].
  match goal with
  | |- context [loop _ _ ?st] => destruct (IH st) as [evs2 ->]
  end.
  eexists.
  destruct (to_audio m), (to_image m); cbn -[Z.add Z.of_nat];
    rewrite ?app_nil_r, <- ?app_assoc; reflexivity.
Qed.

(** X5.  Frames that are JSON objects never stop the router: it counts
    each, puts each on at most one lane (the audio tests come first, so a
    message with an audio type or an [audio_chunk] key never reaches the
    video lane, even with an [image] key), and each lane receives its
    messages in the order they arrived. *)
Theorem router_routes_in_order (msgs : list (gmap string json)) (s : Session) :
  let o := message_router (object_frames msgs) s in
  value_of o = Some Waiting ∧
  audio_queue (state_of o)
    = audio_queue s ++ (Some <$> filter (λ m, to_audio m) msgs) ∧
  image_queue (state_of o)
    = image_queue s ++ (Some <$> filter (λ m, to_image m) msgs) ∧
  msg_count (state_of o) = msg_count s + Z.of_nat (length msgs) ∧
  ∀ m, to_audio m && to_image m = false.
Proof.
  intros o. subst o. unfold message_router.
  destruct (router_loop_objects msgs s) as [evs ->].
  destruct s. cbn -[Z.add Z.of_nat]. repeat split.
  intros m. unfold to_image. by destruct (to_audio m).
Qed.

(** X6.  When the client disconnects, the router puts one poison pill
    behind the messages already routed on each lane and re-raises the
    disconnect; nothing that would come after is read. *)
Theorem router_disconnect_sends_pills (msgs : list (gmap string json))
    (rest : list received) (s : Session) :
  let o := message_router (object_frames msgs ++ Disconnected :: rest) s in
  raised o = Some WebSocketDisconnect ∧
  audio_queue (state_of o)
    = audio_queue s ++ (Some <$> filter (λ m, to_audio m) msgs) ++ [None] ∧
  image_queue (state_of o)
    = image_queue s ++ (Some <$> filter (λ m, to_image m) msgs) ++ [None].
Proof.
  intros o. subst o. unfold message_router.
  destruct (router_loop_objects msgs s) as [evs Hl].
  rewrite (loop_app _ _ _ _ _ _ Hl). clear Hl.
  destruct s. run. by rewrite <- !app_assoc.
Qed.

End RoutingFacts.

(** ** The audio lane, chunk by chunk *)

Module AudioLaneFacts.

Section WithCodec.
Context `{Codec}.

Lemma audio_iter_inactive (a : audio_answers) (msg : gmap string json)
    (s : Session) :
  deepgram_connection s && deepgram_running s = false →
  ∃ evs, audio_processor_iter a (Some msg) s = Returns s Continue evs ∧
         deepgram_sends evs = [].
Proof.
  intros Hoff. unfold audio_processor_iter.
  destruct (is_str _ _); run; [by eexists|].
  destruct (truthy _); run; [|by eexists].
  destruct (deepgram_connection s), (deepgram_running s); try done;
    by eexists.
Qed.

(** X7.  With a running transcription session, a chunk is counted, then
    decoded and sent to Deepgram as the decoded bytes; a send that fails is
    logged as an error and the loop goes on.  A payload that does not
    decode as base64 raises out of the processor after it was counted, and
    nothing is sent. *)
Theorem audio_chunk_is_forwarded (a : audio_answers)
    (msg : gmap string json) (chunk : string) (s : Session) :
  deepgram_connection s = true → deepgram_running s = true →
  is_str (dict_get msg "type") "audio_stream_stop" = false →
  py_or (dict_get msg "audio_chunk") (dict_get msg "audio") = JStr chunk →
  chunk ≠ "" →
  let o := audio_processor_iter a (Some msg) s in
  chunk_count (state_of o) = chunk_count s + 1 ∧
  match b64decode chunk with
  | Some audio_bytes =>
      value_of o = Some Continue ∧
      deepgram_sends (events_of o) = [audio_bytes] ∧
      (send_media_ok a = false →
       last (events_of o)
         = Some (logev ERROR "[Deepgram] Error sending audio: {}" [AOpaque]))
  | None =>
      raised o ≠ None ∧ deepgram_sends (events_of o) = []
  end.
Proof.
  intros Hc Hr Hstop Hchunk Hne o. subst o. unfold audio_processor_iter.
  rewrite Hstop, Hchunk. run. rewrite Hc, Hr.
  rewrite (bool_decide_eq_true_2 _ Hne). cbn.
  destruct s as [sid aq iq uq tb cb c1 c2 c3 c4 enc meta dc dr
                 s3m m0 md cfg mc cc]. cbn.
  destruct (bool_decide ((cc + 1) `mod` 10 = 0)); cbn;
    (destruct (b64decode chunk) as [audio_bytes|]; cbn; [|done]);
    destruct a as [[]]; cbn; by repeat split.
Qed.

#[local] Arguments audio_processor_iter : simpl never.

(** X8.  With no running transcription session the audio lane drains its
    queue up to the poison pill without sending anything to Deepgram and
    without decoding any payload, so not even a malformed payload stops
    it; what is queued behind the pill stays queued. *)
Theorem audio_lane_idles_without_session (msgs : list (gmap string json))
    (rest : list (option (gmap string json))) (envs : list audio_answers)
    (s : Session) :
  deepgram_connection s && deepgram_running s = false →
  audio_queue s = (Some <$> msgs) ++ None :: rest →
  (length msgs < length envs)%nat →
  let o := audio_processor envs s in
  value_of o = Some Finished ∧
  audio_queue (state_of o) = rest ∧
  deepgram_sends (events_of o) = [] ∧
  chunk_count (state_of o) = chunk_count s.
Proof.
  revert envs s. induction msgs as [|m msgs IH]; intros envs s Hoff Hq Hlen.
  - destruct envs as [|e envs]; [cbn in Hlen; lia|].
    unfold audio_processor. cbn. run. rewrite Hq. cbn.
    destruct s. by cbn.
  - destruct envs as [|e envs]; [cbn in Hlen; lia|].
    unfold audio_processor in *. cbn [consume]. run. rewrite Hq. cbn.
    assert (deepgram_connection (set_audio_queue ((Some <$> msgs) ++ None :: rest) s)
            && deepgram_running (set_audio_queue ((Some <$> msgs) ++ None :: rest) s)
            = false) as Hoff' by (by destruct s).
    destruct (audio_iter_inactive e m _ Hoff') as (evs & -> & Hevs).
    cbn.
    specialize (IH envs (set_audio_queue ((Some <$> msgs) ++ None :: rest) s)
                  Hoff').
    destruct IH as (Hv & Hqq & Hs & Hc); [by destruct s|cbn in Hlen; lia|].
    destruct (consume _ _ _ envs _) as [s2 st evs2|]; cbn in *; [|done].
    split; [done|]. split; [done|]. split.
    + unfold deepgram_sends in *. rewrite omap_app. by rewrite Hevs, Hs.
    + rewrite Hc. by destruct s.
Qed.

End WithCodec.

Lemma audio_chunk_is_forwarded_witness :
  let a := {| send_media_ok := false |} in
  let o := @audio_processor_iter Sample.codec a (Some Example.audio_msg)
             Example.session in
  chunk_count (state_of o) = 1 ∧
  value_of o = Some Continue ∧
  deepgram_sends (events_of o) = [[Byte.x00; Byte.x00; Byte.x00; Byte.x00]] ∧
  last (events_of o)
    = Some (logev ERROR "[Deepgram] Error sending audio: {}" [AOpaque]).
Proof.
  intros a o.
  destruct (@audio_chunk_is_forwarded Sample.codec a Example.audio_msg "AAAA"
              Example.session eq_refl eq_refl eq_refl eq_refl)
    as (Hcount & Hv & Hsent & Hlog); [done|].
  split; [exact Hcount|]. split; [exact Hv|]. split; [exact Hsent|].
  exact (Hlog eq_refl).
Defined.

Lemma audio_lane_idles_without_session_witness :
  let s := set_audio_queue [Some Example.audio_msg; None; Some Example.stop_msg]
             (set_deepgram_running false Example.session) in
  let o := @audio_processor Sample.codec
             [{| send_media_ok := true |}; {| send_media_ok := true |}] s in
  value_of o = Some Finished ∧
  audio_queue (state_of o) = [Some Example.stop_msg] ∧
  deepgram_sends (events_of o) = [] ∧
  chunk_count (state_of o) = 0.
Proof.
  intros s o.
  apply (@audio_lane_idles_without_session Sample.codec [Example.audio_msg]
           [Some Example.stop_msg] _ s); [reflexivity|reflexivity|cbn; lia].
Defined.

End AudioLaneFacts.

(** ** The upload worker as a whole *)

Module UploadLaneFacts.
Import ClipEncoder UploadFacts.

Lemma upload_iter_state (a : upload_answers) (item : ClipResult) (s : Session) :
  ∃ cl meta evs,
    upload_processor_iter a (Some item) s
      = Returns (set_current_clip_metadata meta
                   (set_s3_manager (with_client cl (s3_manager s)) s))
          Continue evs ∧
    (meta = current_clip_metadata s ∨ meta = Some (metadata_of s item)).
Proof.
  unfold upload_processor_iter, s3, S3Manager.upload_clip,
    S3Manager.upload_thumbnail, S3Manager.put_object, S3Manager._get_client,
    fromisoformat, create_video_clip, metadata_of, with_client.
  destruct s as [sid aq iq uq tb cb c1 c2 c3 c4 enc meta dc dr
                 [cl bucket reg] m0 md cfg mc cc].
  destruct a as [[bc1 po1] [bc2 po2] db].
  destruct item as [video start stop idx thumb].
  destruct bucket as [[|ch bname]|];
    [run; eexists cl, _, _; split; [reflexivity|by left]|
    |run; eexists cl, _, _; split; [reflexivity|by left]].
  destruct cl; [|destruct bc1;
    [|run; eexists false, _, _; split; [reflexivity|by left]]];
  (destruct po1; [|run; eexists true, _, _; split; [reflexivity|by left]]);
  (destruct thumb as [|b0 thumb];
   [|destruct po2; [|run; eexists true, _, _; split; [reflexivity|by left]]]);
  destruct start, stop, db; run;
  eexists true, _, _; (split; [reflexivity|]); auto.
Qed.

#[local] Arguments upload_processor_iter : simpl never.

Lemma consume_upload (clips : list ClipResult)
    (rest : list (option ClipResult)) (envs : list upload_answers)
    (s : Session) :
  upload_queue s = (Some <$> clips) ++ None :: rest →
  (length clips < length envs)%nat →
  let o := consume upload_queue set_upload_queue upload_processor_iter envs s in
  value_of o = Some Finished ∧
  upload_queue (state_of o) = rest ∧
  (current_clip_metadata (state_of o) = current_clip_metadata s
   ∨ ∃ c, c ∈ clips ∧
          current_clip_metadata (state_of o) = Some (metadata_of s c)).
Proof.
  revert envs s. induction clips as [|c clips IH]; intros envs s Hq Hlen.
  - destruct envs as [|e envs]; [cbn in Hlen; lia|].
    cbn. run. rewrite Hq. destruct s. cbn. auto.
  - destruct envs as [|e envs]; [cbn in Hlen; lia|].
    cbn [consume]. run. rewrite Hq. cbn.
    destruct (upload_iter_state e c
                (set_upload_queue ((Some <$> clips) ++ None :: rest) s))
      as (cl & meta & evs & -> & Hmeta).
    cbn.
    match goal with
    | |- context [consume _ _ _ envs ?st] =>
        destruct (IH envs st) as (Hv & Hr & Hm);
          [by destruct s|cbn in Hlen; lia|];
        destruct (consume _ _ _ envs st) as [s2 st2 evs2|]; [|done]
    end.
    cbn in *. split; [done|]. split; [done|].
    assert (∀ x, metadata_of
                   (set_current_clip_metadata meta
                      (set_s3_manager
                         (with_client cl
                            (s3_manager
                               (set_upload_queue
                                  ((Some <$> clips) ++ None :: rest) s)))
                         (set_upload_queue ((Some <$> clips) ++ None :: rest) s)))
                   x = metadata_of s x) as Hsame by (by destruct s).
    assert (metadata_of
              (set_upload_queue ((Some <$> clips) ++ None :: rest) s) c
            = metadata_of s c) as Hsame' by (by destruct s).
    destruct Hm as [Hm|(c' & Hc' & Hm)].
    + rewrite Hm. destruct s. cbn in *.
      destruct Hmeta as [->| ->]; [by left|].
      right. exists c. split; [apply list_elem_of_here|]. done.
    + right. exists c'. split; [by apply list_elem_of_further|].
      by rewrite Hm, Hsame.
Qed.

(** X9.  Whatever blob storage and the database answer, the upload worker
    never raises: it takes the clips in queue order up to the stop signal
    and finishes there, leaving what is queued behind the signal; the
    shared clip metadata is afterwards the value it had or the metadata of
    one of the clips taken. *)
Theorem upload_worker_survives_and_stops_at_pill (clips : list ClipResult)
    (rest : list (option ClipResult)) (envs : list upload_answers)
    (s : Session) :
  upload_queue s = (Some <$> clips) ++ None :: rest →
  (length clips < length envs)%nat →
  let o := upload_processor envs s in
  value_of o = Some Finished ∧
  upload_queue (state_of o) = rest ∧
  (current_clip_metadata (state_of o) = current_clip_metadata s
   ∨ ∃ c, c ∈ clips ∧
          current_clip_metadata (state_of o) = Some (metadata_of s c)).
Proof.
  intros Hq Hlen o.
  assert (∃ ev, o = match consume upload_queue set_upload_queue
                            upload_processor_iter envs s with
                    | Returns s2 st evs => Returns s2 st (ev :: evs)
                    | Raises s2 e evs => Raises s2 e (ev :: evs)
                    end) as [ev ->].
  { subst o. unfold upload_processor, upload_processor_start. run.
    destruct (negb _); eexists; cbn;
      by destruct (consume _ _ _ envs s). }
  destruct (consume_upload clips rest envs s Hq Hlen) as (Hv & Hr & Hm).
  by destruct (consume _ _ _ envs s).
Qed.

Lemma upload_worker_survives_and_stops_at_pill_witness :
  let s := set_upload_queue [Some (Example.clip 0); None; Some (Example.clip 1)]
             (set_s3_manager Example.s3_configured Example.session) in
  let failing :=
    {| clip_put := {| S3Manager.boto_client_ok := true;
                      S3Manager.put_object_ok := false |};
       thumbnail_put := {| S3Manager.boto_client_ok := true;
                           S3Manager.put_object_ok := true |};
       db_commit_ok := true |} in
  let o := upload_processor [failing; Example.all_ok] s in
  value_of o = Some Finished ∧
  upload_queue (state_of o) = [Some (Example.clip 1)] ∧
  (current_clip_metadata (state_of o) = current_clip_metadata s
   ∨ ∃ c, c ∈ [Example.clip 0] ∧
          current_clip_metadata (state_of o) = Some (metadata_of s c)).
Proof.
  intros s failing o.
  apply (upload_worker_survives_and_stops_at_pill [Example.clip 0]
           [Some (Example.clip 1)] [failing; Example.all_ok] s);
    [reflexivity|cbn; lia].
Defined.

End UploadLaneFacts.

(** ** The Mem0 manager over several calls *)

Module Mem0ManagerFacts.
Import BatcherFacts.

#[local] Arguments mem0_adds : simpl never.
#[local] Arguments String.append : simpl never.
#[local] Arguments String.substring : simpl never.
#[local] Arguments Mem0Manager.first50 : simpl never.
#[local] Arguments Mem0Manager.caption_content : simpl never.
#[local] Arguments Mem0Manager.transcript_content : simpl never.

Lemma perform_with_client cfg a call m :
  Mem0Manager._client m = true →
  ∃ evs, perform cfg a call m = Returns m (Mem0Manager.add_ok a) evs ∧
         mem0_adds evs = [call_record call].
Proof.
  intros Hc. destruct m as [cl att]. cbn in Hc. subst cl.
  destruct call, a as [mc []]; cbn;
    unfold Mem0Manager.store_caption, Mem0Manager.store_caption_with_clip,
      Mem0Manager.store_transcript, Mem0Manager._get_client,
      Mem0Manager.client_add; run; by eexists.
Qed.

Lemma perform_without_client cfg a call m :
  Mem0Manager._client m = false → Mem0Manager._init_attempted m = true →
  ∃ ev, perform cfg a call m = Returns m false [EvLog ev] ∧
        log_level ev = WARNING.
Proof.
  intros Hc Ha. destruct m as [cl att]. cbn in Hc, Ha. subst cl att.
  destruct call; cbn;
    unfold Mem0Manager.store_caption, Mem0Manager.store_caption_with_clip,
      Mem0Manager.store_transcript, Mem0Manager._get_client; run; by eexists.
Qed.

#[local] Arguments perform : simpl never.

(** X10.  Once the manager holds a client, every store call makes exactly
    one [client.add] call and returns, whatever the outside answers: an
    [add] that raises is caught and reported as [False]; the client is
    kept and never created again. *)
Theorem mem0_client_is_kept (cfg : Settings)
    (calls : list (Mem0Manager.answers * store_call)) (m : Mem0Manager.t) :
  Mem0Manager._client m = true →
  let o := perform_all cfg calls m in
  state_of o = m ∧
  value_of o = Some ((λ c, Mem0Manager.add_ok c.1) <$> calls) ∧
  mem0_adds (events_of o) = (λ c, call_record c.2) <$> calls.
Proof.
  intros Hc. induction calls as [|[a call] calls IH]; [done|].
  cbn [perform_all]. destruct (perform_with_client cfg a call m Hc)
    as (evs & Hp & Hadds).
  cbn in IH. destruct IH as (Hs & Hv & Ha).
  unfold mbind, M_bind. rewrite Hp.
  destruct (perform_all cfg calls m) as [m' rs evs'|]; [|done].
  cbn in *. subst m'. injection Hv as ->.
  by rewrite mem0_adds_app, app_nil_r, Hadds, Ha.
Qed.

(** X11.  A manager without an API key tries once.  The first store call
    raises "MEM0_API_KEY not configured" out of the method and makes no
    [client.add] call; after it every store call returns [False] with one
    warning, makes no [client.add] call and raises nothing. *)
Theorem mem0_gives_up_after_failed_init (cfg : Settings)
    (a : Mem0Manager.answers) (call : store_call)
    (calls : list (Mem0Manager.answers * store_call)) :
  truthy_opt_str (MEM0_API_KEY cfg) = false →
  let fresh := {| Mem0Manager._client := false;
                  Mem0Manager._init_attempted := false |} in
  let first := perform cfg a call fresh in
  let later := perform_all cfg calls (state_of first) in
  raised first = Some (Exception "MEM0_API_KEY not configured") ∧
  events_of first = [] ∧
  value_of later = Some ((λ _, false) <$> calls) ∧
  mem0_adds (events_of later) = [] ∧
  length (logged_at WARNING (events_of later)) = length calls ∧
  state_of later = state_of first.
Proof.
  intros Hkey fresh first later.
  assert (first = Raises {| Mem0Manager._client := false;
                            Mem0Manager._init_attempted := true |}
                    (Exception "MEM0_API_KEY not configured") []) as Hfirst.
  { subst first fresh. unfold perform.
    destruct call;
      unfold Mem0Manager.store_caption, Mem0Manager.store_caption_with_clip,
        Mem0Manager.store_transcript, Mem0Manager._get_client; run;
      by rewrite Hkey. }
  subst later. rewrite Hfirst. cbn [state_of raised events_of].
  split; [done|]. split; [done|]. clear.
  induction calls as [|[a call] calls IH]; [done|].
  cbn [perform_all].
  destruct (perform_without_client cfg a call
              {| Mem0Manager._client := false;
                 Mem0Manager._init_attempted := true |} eq_refl eq_refl)
    as (ev & Hp & Hlvl).
  unfold mbind, M_bind. rewrite Hp.
  destruct (perform_all cfg calls _) as [m' rs evs'|]; [|by destruct IH].
  cbn in *. destruct IH as (Hv & Ha & Hl & Hs). injection Hv as ->.
  subst m'. rewrite app_nil_r.
  destruct ev as [[] ? ?]; cbn in Hlvl; try done.
  split; [done|]. split; [by rewrite mem0_adds_log|].
  split; [cbn; by rewrite Hl|done].
Qed.

Lemma mem0_client_is_kept_witness :
  let calls :=
    [(Example.mem0_ok, CallTranscript (Example.utterance "Speaker 0" "hello"));
     ({| Mem0Manager.memory_client_ok := true; Mem0Manager.add_ok := false |},
      CallCaption (caption (Example.seen 1 "a desk")))] in
  let o := perform_all Example.cfg calls Example.mem0_ready in
  state_of o = Example.mem0_ready ∧
  value_of o = Some [true; false] ∧
  mem0_adds (events_of o) = (λ c, call_record c.2) <$> calls.
Proof.
  intros calls o.
  apply (mem0_client_is_kept Example.cfg calls Example.mem0_ready).
  reflexivity.
Defined.

Lemma mem0_gives_up_after_failed_init_witness :
  let cfg := {| MEM0_API_KEY := None; MOONDREAM_API_KEY := Some "md-key" |} in
  let fresh := {| Mem0Manager._client := false;
                  Mem0Manager._init_attempted := false |} in
  let first := perform cfg Example.mem0_ok
                 (CallTranscript (Example.utterance "Speaker 0" "hello"))
                 fresh in
  let calls := [(Example.mem0_ok,
                 CallCaption (caption (Example.seen 1 "a desk")))] in
  let later := perform_all cfg calls (state_of first) in
  raised first = Some (Exception "MEM0_API_KEY not configured") ∧
  events_of first = [] ∧
  value_of later = Some [false] ∧
  mem0_adds (events_of later) = [] ∧
  length (logged_at WARNING (events_of later)) = 1%nat ∧
  state_of later = state_of first.
Proof.
  intros cfg fresh first calls later.
  apply (mem0_gives_up_after_failed_init cfg Example.mem0_ok
           (CallTranscript (Example.utterance "Speaker 0" "hello")) calls).
  reflexivity.
Defined.

End Mem0ManagerFacts.

(** ** The two flushes side by side *)

Module FlushFacts.
Import BatcherFacts.

#[local] Arguments speaker_str : simpl never.
#[local] Arguments String.concat : simpl never.
#[local] Arguments String.substring : simpl never.
#[local] Arguments String.append : simpl never.
#[local] Arguments last : simpl never.
#[local] Arguments combined_caption : simpl never.
#[local] Arguments combined_transcript : simpl never.
#[local] Arguments last_clip : simpl never.
#[local] Arguments Mem0Manager.store_transcript : simpl never.
#[local] Arguments Mem0Manager.store_caption_with_clip : simpl never.
#[local] Arguments mem0_adds : simpl never.
#[local] Arguments batch_requests : simpl never.

(** X12.  On the same session the teardown flush and the timer flush make
    the same [client.add] calls, raise in the same cases, leave the same
    Mem0 manager and count the same requests; they differ in what is left
    in the batches and in what they log. *)
Theorem teardown_flush_stores_what_timer_flush_stores (a : flush_answers)
    (s : Session) :
  let f := flush_mem0_batch a s in
  let t := mem0_batch_tick a s in
  mem0_adds (events_of f) = mem0_adds (events_of t) ∧
  raised f = raised t ∧
  mem0_manager (state_of f) = mem0_manager (state_of t) ∧
  mem0_transcript_requests (state_of f) = mem0_transcript_requests (state_of t) ∧
  mem0_caption_requests (state_of f) = mem0_caption_requests (state_of t) ∧
  mem0_total_transcripts (state_of f) = mem0_total_transcripts (state_of t) ∧
  mem0_total_captions (state_of f) = mem0_total_captions (state_of t).
Proof.
  intros f t. subst f t. unfold flush_mem0_batch, mem0_batch_tick, mem0.
  destruct s as [sid aq iq uq tb cb c1 c2 c3 c4 enc meta dc dr
                 s3m m0 md cfg mc cc].
  destruct tb as [|tr tb]; destruct cb as [|c cb]; run_goal; try done.
  - destruct (Mem0Manager.store_caption_with_clip _ _ _ _ m0); run_goal;
      (repeat split; done).
  - destruct (Mem0Manager.store_transcript _ _ _ m0); run_goal;
      (repeat split; done).
  - destruct (Mem0Manager.store_transcript _ _ _ m0) as [m1 ? ?|]; run_goal;
      [|(repeat split; done)].
    destruct (Mem0Manager.store_caption_with_clip _ _ _ _ m1); run_goal;
      (repeat split; rewrite ?mem0_adds_app; done).
Qed.

(** X13.  The request counters count flushed batches, not [client.add]
    calls: a timer flush that returns has added one request for each
    non-empty batch and the batch sizes to the totals; this is so also
    when the Mem0 client is missing, where the flush returns and nothing
    was stored. *)
Theorem counters_count_batches_not_adds (a : flush_answers) (s : Session) :
  let o := mem0_batch_tick a s in
  (raised o = None →
   mem0_transcript_requests (state_of o)
     = mem0_transcript_requests s + batch_requests (transcript_batch s) ∧
   mem0_caption_requests (state_of o)
     = mem0_caption_requests s + batch_requests (caption_batch s) ∧
   mem0_total_transcripts (state_of o)
     = mem0_total_transcripts s + Z.of_nat (length (transcript_batch s)) ∧
   mem0_total_captions (state_of o)
     = mem0_total_captions s + Z.of_nat (length (caption_batch s))) ∧
  (Mem0Manager._client (mem0_manager s) = false →
   Mem0Manager._init_attempted (mem0_manager s) = true →
   raised o = None ∧ mem0_adds (events_of o) = []).
Proof.
  intros o. subst o. unfold mem0_batch_tick, mem0, batch_requests.
  destruct s as [sid aq iq uq tb cb c1 c2 c3 c4 enc meta dc dr
                 s3m m0 md cfg mc cc].
  destruct tb as [|tr tb]; destruct cb as [|c cb]; run_goal.
  - split; [intros _; repeat split; lia|done].
  - pose proof (store_caption_with_clip_spec cfg (caption_store a)
                  (combined_caption c (c :: cb)) (last_clip c (c :: cb)) m0)
      as (_ & Hc & _).
    destruct (Mem0Manager.store_caption_with_clip _ _ _ _ m0); run_goal;
      (split; [intros; repeat split; try done; lia|]);
      intros Hcl Hat; destruct (Hc Hcl Hat) as (_ & ? & ?); done.
  - pose proof (store_transcript_spec cfg (transcript_store a)
                  (combined_transcript sid tr (tr :: tb)) m0) as (_ & Ht & _).
    destruct (Mem0Manager.store_transcript _ _ _ m0); run_goal;
      (split; [intros; repeat split; try done; lia|]);
      intros Hcl Hat; destruct (Ht Hcl Hat) as (_ & ? & ?); done.
  - pose proof (store_transcript_spec cfg (transcript_store a)
                  (combined_transcript sid tr (tr :: tb)) m0) as (_ & Ht & _).
    destruct (Mem0Manager.store_transcript _ _ _ m0) as [m1 ? e1|]; run_goal.
    2:{ split; [done|]. intros Hcl Hat.
        by destruct (Ht Hcl Hat) as (_ & ? & ?). }
    pose proof (store_caption_with_clip_spec cfg (caption_store a)
                  (combined_caption c (c :: cb)) (last_clip c (c :: cb)) m1)
      as (_ & Hc & _).
    destruct (Mem0Manager.store_caption_with_clip _ _ _ _ m1); run_goal;
      (split; [intros; repeat split; try done; lia|]);
      intros Hcl Hat; destruct (Ht Hcl Hat) as (Hm & _ & He1);
      cbn in Hm, He1; subst m1;
      destruct (Hc Hcl Hat) as (_ & ? & He2); cbn in He2;
      try done; by rewrite He1, He2.
Qed.

(** X14.  A timer flush that raises has lost its snapshot.  The batches
    were emptied before the first store call, so when that call raises
    (which it does only while creating the Mem0 client for the first
    time) nothing was stored, the counters stand as they were, and the
    teardown flush that follows finds nothing to store. *)
Theorem timer_flush_that_raises_loses_the_batches (a b : flush_answers)
    (s : Session) :
  let o := mem0_batch_tick a s in
  raised o ≠ None →
  transcript_batch (state_of o) = [] ∧ caption_batch (state_of o) = [] ∧
  mem0_adds (events_of o) = [] ∧
  mem0_transcript_requests (state_of o) = mem0_transcript_requests s ∧
  mem0_caption_requests (state_of o) = mem0_caption_requests s ∧
  mem0_total_transcripts (state_of o) = mem0_total_transcripts s ∧
  mem0_total_captions (state_of o) = mem0_total_captions s ∧
  Mem0Manager._client (mem0_manager s) = false ∧
  Mem0Manager._init_attempted (mem0_manager s) = false ∧
  flush_mem0_batch b (state_of o) = Returns (state_of o) () [].
Proof.
  intros o. subst o. unfold mem0_batch_tick, mem0.
  destruct s as [sid aq iq uq tb cb c1 c2 c3 c4 enc meta dc dr
                 s3m m0 md cfg mc cc].
  destruct tb as [|tr tb]; destruct cb as [|c cb]; run_goal; try done.
  - pose proof (store_caption_with_clip_spec cfg (caption_store a)
                  (combined_caption c (c :: cb)) (last_clip c (c :: cb)) m0)
      as (Hc1 & Hc2 & Hc3).
    destruct (Mem0Manager.store_caption_with_clip _ _ _ _ m0)
      as [m1 b1 e1|m1 x1 e1]; run_goal; [done|]. cbn in Hc1, Hc2, Hc3.
    intros _. destruct m0 as [[] []]; cbn in *;
      intuition (try congruence).
  - pose proof (store_transcript_spec cfg (transcript_store a)
                  (combined_transcript sid tr (tr :: tb)) m0)
      as (Hc1 & Hc2 & Hc3).
    destruct (Mem0Manager.store_transcript _ _ _ m0)
      as [m1 b1 e1|m1 x1 e1]; run_goal; [done|]. cbn in Hc1, Hc2, Hc3.
    intros _. destruct m0 as [[] []]; cbn in *;
      intuition (try congruence).
  - pose proof (store_transcript_spec cfg (transcript_store a)
                  (combined_transcript sid tr (tr :: tb)) m0)
      as (Hc1 & Hc2 & Hc3).
    destruct (Mem0Manager.store_transcript _ _ _ m0)
      as [m1 b1 e1|m1 x1 e1]; run_goal; cbn in Hc1, Hc2, Hc3.
    2:{ intros _. destruct m0 as [[] []]; cbn in *;
          intuition (try congruence). }
    pose proof (store_caption_with_clip_spec cfg (caption_store a)
                  (combined_caption c (c :: cb)) (last_clip c (c :: cb)) m1)
      as (Hd1 & Hd2 & Hd3).
    destruct (Mem0Manager.store_caption_with_clip _ _ _ _ m1)
      as [m2 b2 e2|m2 x2 e2]; run_goal; [done|]. cbn in Hd1, Hd2, Hd3.
    intros _. exfalso.
    destruct m1 as [[] []]; cbn in *; intuition (try congruence).
Qed.

Lemma counters_count_batches_not_adds_witness :
  let s := set_mem0_manager
             {| Mem0Manager._client := false;
                Mem0Manager._init_attempted := true |}
             (set_transcript_batch
                [Example.utterance "Speaker 0" "hello";
                 Example.utterance "Speaker 0" "again"]
                Example.session) in
  let o := mem0_batch_tick Example.flush_ok s in
  (mem0_transcript_requests (state_of o) = 1 ∧
   mem0_caption_requests (state_of o) = 0 ∧
   mem0_total_transcripts (state_of o) = 2 ∧
   mem0_total_captions (state_of o) = 0) ∧
  raised o = None ∧ mem0_adds (events_of o) = [].
Proof.
  intros s o.
  destruct (counters_count_batches_not_adds Example.flush_ok s)
    as [Hcount Hnone].
  destruct (Hnone eq_refl eq_refl) as [Hr Ha].
  split; [exact (Hcount Hr)|]. split; [exact Hr|exact Ha].
Defined.

Lemma timer_flush_that_raises_loses_the_batches_witness :
  let cfg := {| MEM0_API_KEY := None; MOONDREAM_API_KEY := Some "md-key" |} in
  let s := set_transcript_batch [Example.utterance "Speaker 0" "hello"]
             (new_session "vc_1" cfg Example.s3_unconfigured
                {| Mem0Manager._client := false;
                   Mem0Manager._init_attempted := false |}
                (MoondreamProcessor.init 50)) in
  let o := mem0_batch_tick Example.flush_ok s in
  raised o = Some (Exception "MEM0_API_KEY not configured") ∧
  transcript_batch (state_of o) = [] ∧
  mem0_adds (events_of o) = [] ∧
  mem0_total_transcripts (state_of o) = 0 ∧
  flush_mem0_batch Example.flush_ok (state_of o) = Returns (state_of o) () [].
Proof.
  intros cfg s o.
  destruct (timer_flush_that_raises_loses_the_batches Example.flush_ok
              Example.flush_ok s)
    as (Ht & _ & Ha & _ & _ & Htt & _ & _ & _ & Hf); [done|].
  split; [reflexivity|]. split; [exact Ht|]. split; [exact Ha|].
  split; [exact Htt|exact Hf].
Defined.

End FlushFacts.

(** ** Data URLs *)

Module DataUrlFacts.

Lemma after_first_comma_header (mime payload : string) :
  Forall (λ c, c ≠ ","%char) (String.list_ascii_of_string mime) →
  after_first_comma (mime +:+ "," +:+ payload) = Some payload.
Proof.
  induction mime as [|c mime IH]; intros Hno.
  - done.
  - apply Forall_cons in Hno as [Hc Hno].
    change (String c mime +:+ "," +:+ payload)
      with (String c (mime +:+ "," +:+ payload)).
    cbn -[bool_decide]. rewrite (bool_decide_eq_false_2 _ Hc). by apply IH.
Qed.

Lemma after_first_comma_none (s : string) :
  Forall (λ c, c ≠ ","%char) (String.list_ascii_of_string s) →
  after_first_comma s = None.
Proof.
  induction s as [|c s IH]; cbn -[bool_decide]; intros Hno; [done|].
  apply Forall_cons in Hno as [Hc Hno].
  rewrite (bool_decide_eq_false_2 _ Hc). by apply IH.
Qed.

Lemma strip_data_url_data (rest : string) :
  strip_data_url (JStr ("data:" +:+ rest))
    = JStr (default ("data:" +:+ rest) (after_first_comma rest)).
Proof. by destruct rest. Qed.

(** X15.  A data URL loses its header: everything up to and including the
    first comma goes, whatever the media type says and also when the
    payload has commas of its own; a [data:] string with no comma at all
    is left as it is. *)
Theorem strip_data_url_drops_header (mime payload : string) :
  Forall (λ c, c ≠ ","%char) (String.list_ascii_of_string mime) →
  strip_data_url (JStr ("data:" +:+ mime +:+ "," +:+ payload)) = JStr payload ∧
  strip_data_url (JStr ("data:" +:+ mime)) = JStr ("data:" +:+ mime).
Proof.
  intros Hno. rewrite !strip_data_url_data.
  by rewrite after_first_comma_header, after_first_comma_none.
Qed.

Lemma strip_data_url_drops_header_witness :
  strip_data_url (JStr "data:image/jpeg;base64,AAEC,Aw==") = JStr "AAEC,Aw==" ∧
  strip_data_url (JStr "data:image/jpeg;base64") = JStr "data:image/jpeg;base64".
Proof.
  apply (strip_data_url_drops_header "image/jpeg;base64" "AAEC,Aw==").
  cbn. repeat constructor; done.
Defined.

End DataUrlFacts.

(** ** The vision processor, call by call *)

Module VisionFacts.
Import BatcherFacts MoondreamProcessor.

#[local] Arguments Mem0Manager.store_caption : simpl never.
#[local] Arguments truthy_opt_str : simpl never.

Section WithCodec.
Context `{Codec}.

(** X16.  [process_frame] counts every call and captions only the calls
    whose count is a multiple of [_process_every_n]; the other calls do
    nothing else: no log, no model, no memory store.  It never raises,
    whatever the decoder, the model and Mem0 do.  A caption it returns
    carries the count as its frame number and the model's answer as its
    description, and is appended to a history that stays within
    [max_history].  ([_process_every_n] is not zero: Python's [%] raises
    there.) *)
Theorem process_frame_throttles (cfg : Settings) (a : answers)
    (image_b64 : string) (md : t) (m0 : Mem0Manager.t) :
  _process_every_n md ≠ 0 →
  let o := process_frame cfg a image_b64 (md, m0) in
  let md' := (state_of o).1 in
  let n := _frame_counter md + 1 in
  raised o = None ∧
  _frame_counter md' = n ∧
  _process_every_n md' = _process_every_n md ∧
  max_history md' = max_history md ∧
  (n `mod` _process_every_n md ≠ 0 →
   o = Returns (with_counter n md, m0) None []) ∧
  (∀ c, value_of o = Some (Some c) →
     n `mod` _process_every_n md = 0 ∧
     c = {| timestamp := now_iso a; description := default "" (query_answer a);
            frame_number := n |} ∧
     is_Some (query_answer a) ∧
     frame_history md'
       = drop (length (frame_history md ++ [c]) - max_history md)
              (frame_history md ++ [c])) ∧
  ((length (frame_history md) ≤ max_history md)%nat →
   (length (frame_history md') ≤ max_history md)%nat).
Proof.
  intros Hn o md' n. subst o md' n. unfold process_frame, _get_model.
  destruct md as [mdl ini hist mh cnt n].
  run_goal. case_bool_decide as Hmod; run_goal; [by repeat split|].
  destruct (truthy_opt_str (MOONDREAM_API_KEY cfg)); run_goal;
    [|by repeat split].
  destruct (b64decode image_b64) as [image_bytes|]; run_goal;
    [|by repeat split].
  destruct (image_open image_bytes); run_goal; [|by repeat split].
  destruct mdl; [|destruct (model_ok a)]; run_goal;
    try (by repeat split);
    (destruct (query_answer a) as [answer|]; run_goal; [|by repeat split]);
    match goal with
    | |- context [Mem0Manager.store_caption ?c ?ans ?r ?m0] =>
        destruct (Mem0Manager.store_caption c ans r m0) as [m1 b1 e1|m1 x1 e1]
    end; run_goal;
    (repeat split; try done).
  all: try (intros _; rewrite length_drop, length_app; cbn; lia).
  all: match goal with Hc : Some (Some _) = Some (Some _) |- _ =>
         by injection Hc as <- end.
Qed.

End WithCodec.

Lemma process_frame_throttles_witness :
  let a := {| model_ok := true; query_answer := Some "a desk";
              now_iso := "2025-01-01T00:00:09";
              mem0_answers := Example.mem0_ok |} in
  let c := {| timestamp := "2025-01-01T00:00:09"; description := "a desk";
              frame_number := 10 |} in
  let ninth := @process_frame Sample.codec Example.cfg a "AAAA"
                 (with_counter 8 (init 50), Example.mem0_ready) in
  let tenth := @process_frame Sample.codec Example.cfg a "AAAA"
                 (state_of ninth) in
  ninth = Returns (with_counter 9 (init 50), Example.mem0_ready) None [] ∧
  value_of tenth = Some (Some c) ∧
  raised tenth = None ∧
  _frame_counter (state_of tenth).1 = 10 ∧
  frame_history (state_of tenth).1 = [c].
Proof.
  intros a c ninth tenth.
  destruct (@process_frame_throttles Sample.codec Example.cfg a "AAAA"
              (with_counter 8 (init 50)) Example.mem0_ready)
    as (_ & _ & _ & _ & Hskip & _); [done|].
  destruct (@process_frame_throttles Sample.codec Example.cfg a "AAAA"
              (with_counter 9 (init 50)) Example.mem0_ready)
    as (Hr & Hcnt & _ & _ & _ & Hcap & _); [done|].
  split; [apply Hskip; done|].
  split; [reflexivity|]. split; [exact Hr|]. split; [exact Hcnt|].
  destruct (Hcap c eq_refl) as (_ & _ & _ & Hhist). exact Hhist.
Defined.

End VisionFacts.

(** ** The video lane, message by message *)

Module VideoLaneFacts.
Import BatcherFacts CaptionFacts MoondreamProcessor.

#[local] Arguments MoondreamProcessor.process_frame : simpl never.
#[local] Arguments ClipEncoder.add_frame : simpl never.
#[local] Arguments truthy_opt_str : simpl never.
#[local] Arguments Mem0Manager.store_caption : simpl never.

Section WithCodec.
Context `{Codec}.



(** X18.  A message whose [image] is missing, null or empty is skipped
    without any effect.  One whose image is not a string, or does not
    decode as base64, raises out of the video lane before anything is
    buffered: the message is gone from the queue, the messages behind it
    stay there, and the upload queue gets neither a clip nor the stop
    signal. *)
Theorem unusable_image_skips_or_stops_lane (a : image_answers)
    (envs : list image_answers) (msg : gmap string json)
    (rest : list (option (gmap string json))) (s : Session) :
  image_queue s = Some msg :: rest →
  (truthy (dict_get msg "image") = false →
   image_processor_iter a (Some msg) s = Returns s Continue []) ∧
  (truthy (dict_get msg "image") = true →
   (∀ image_b64, strip_data_url (dict_get msg "image") = JStr image_b64 →
                 b64decode image_b64 = None) →
   let o := image_processor (a :: envs) s in
   raised o ≠ None ∧ state_of o = set_image_queue rest s ∧ events_of o = []).
Proof.
  intros Hq. split.
  - intros Ht. unfold image_processor_iter. by rewrite Ht.
  - intros Ht Hbad o. subst o. unfold image_processor. cbn [consume].
    run_goal. rewrite Hq. run_goal. unfold image_processor_iter.
    assert (truthy (dict_get msg "image") = true) as -> by (by destruct s).
    run_goal.
    destruct (strip_data_url (dict_get msg "image")) as [| | |image_b64| |];
      run_goal; try done.
    by rewrite (Hbad image_b64 eq_refl).
Qed.

End WithCodec.


Lemma unusable_image_skips_or_stops_lane_witness :
  let a := {| now := 0;
              vision := {| MoondreamProcessor.model_ok := true;
                           MoondreamProcessor.query_answer := Some "a desk";
                           MoondreamProcessor.now_iso := "2025-01-01T00:00:09";
                           MoondreamProcessor.mem0_answers := Example.mem0_ok |};
              send_text_ok := true |} in
  let empty : gmap string json := {[ "image" := JStr "" ]} in
  let number : gmap string json := {[ "image" := JNum 7 ]} in
  let s := set_image_queue [Some number; Some Example.image_msg; None]
             Example.session in
  @image_processor_iter Sample.codec a (Some empty)
     (set_image_queue [Some empty] Example.session)
    = Returns (set_image_queue [Some empty] Example.session) Continue [] ∧
  let o := @image_processor Sample.codec [a; a; a] s in
  raised o ≠ None ∧
  state_of o = set_image_queue [Some Example.image_msg; None] s ∧
  events_of o = [].
Proof.
  intros a empty number s. split.
  - apply (@unusable_image_skips_or_stops_lane Sample.codec a [] empty []
             (set_image_queue [Some empty] Example.session) eq_refl).
    reflexivity.
  - apply (@unusable_image_skips_or_stops_lane Sample.codec a [a; a] number
             [Some Example.image_msg; None] s eq_refl);
      [reflexivity|intros image_b64 Hstr; discriminate Hstr].
Defined.

End VideoLaneFacts.

(** ** Transcripts on their way to the memory store *)

Module TranscriptFacts.
Import BatcherFacts.

#[local] Arguments speaker_str : simpl never.
#[local] Arguments String.concat : simpl never.
#[local] Arguments String.substring : simpl never.
#[local] Arguments String.append : simpl never.
#[local] Arguments mem0_adds : simpl never.
#[local] Arguments caption_add : simpl never.
#[local] Arguments Mem0Manager.transcript_content : simpl never.

Lemma transcript_add_snoc (sid : string) (batch : list Transcript)
    (entry : Transcript) :
  transcript_add sid (batch ++ [entry])
    = let record :=
        {| tr_timestamp := tr_timestamp (default entry (head batch));
           tr_speaker := speaker_str (batch ++ [entry]);
           tr_text := String.concat " " ((tr_text <$> batch) ++ [tr_text entry]);
           tr_session_id := sid |} in
      [(Mem0Manager.transcript_content record, MetaTranscript record)].
Proof.
  unfold transcript_add.
  destruct (batch ++ [entry]) as [|first l] eqn:E; [by destruct batch|].
  assert (first = default entry (head batch)) as ->
    by (destruct batch; by injection E).
  rewrite <- E, fmap_app. done.
Qed.

(** X19.  Every transcript is first sent to the client; only a final one
    whose send returned is put in the transcript batch, stamped with the
    session id: an interim one is never batched, and when the send fails
    the exception leaves the callback before the batch is touched.  With
    a Mem0 client at hand, a batched transcript is the last utterance of
    the record the next timer flush stores. *)
Theorem only_sent_final_transcripts_are_batched (now_iso : string) (ok : bool)
    (text : string) (is_final : bool) (speaker : string) (b : flush_answers)
    (s : Session) :
  let o := on_transcript now_iso ok text is_final speaker s in
  let entry := {| tr_timestamp := now_iso; tr_speaker := speaker;
                  tr_text := text; tr_session_id := session_id s |} in
  head (events_of o) = Some (EvWsSend (OutTranscript text is_final speaker)) ∧
  transcript_batch (state_of o)
    = transcript_batch s ++ (if ok && is_final then [entry] else []) ∧
  (raised o = None ↔ ok = true) ∧
  (ok = true → is_final = true →
   Mem0Manager._client (mem0_manager s) = true →
   let o' := mem0_batch_tick b (state_of o) in
   let record :=
     {| tr_timestamp :=
          tr_timestamp (default entry (head (transcript_batch s)));
        tr_speaker := speaker_str (transcript_batch s ++ [entry]);
        tr_text :=
          String.concat " " ((tr_text <$> transcript_batch s) ++ [text]);
        tr_session_id := session_id s |} in
   mem0_adds (events_of o')
     = (Mem0Manager.transcript_content record, MetaTranscript record)
         :: caption_add (caption_batch s)).
Proof.
  intros o entry. subst o entry. unfold on_transcript, send_text.
  destruct s as [sid aq iq uq tb cb c1 c2 c3 c4 enc meta dc dr
                 s3m m0 md cfg mc cc].
  destruct ok, is_final; run_goal; rewrite ?app_nil_r;
    (split; [done|]); (split; [done|]); (split; [done|]); try done.
  intros _ _ Hcl.
  match goal with
  | |- context [mem0_batch_tick b ?st] =>
      destruct (tick_adds b st) as (_ & _ & _ & Hready)
  end.
  destruct (Hready Hcl) as [-> _]. cbn. by rewrite transcript_add_snoc.
Qed.

Lemma only_sent_final_transcripts_are_batched_witness :
  let s := set_transcript_batch [Example.utterance "Speaker 0" "hello"]
             Example.session in
  let o := on_transcript "2025-01-01T00:00:05" true "hi there" true
             "Speaker 1" s in
  let record :=
    {| tr_timestamp := "2025-01-01T00:00:00"; tr_speaker := "multiple";
       tr_text := "hello hi there"; tr_session_id := "vc_1" |} in
  mem0_adds (events_of (mem0_batch_tick Example.flush_ok (state_of o)))
    = [("At 2025-01-01T00:00:00, multiple said: hello hi there",
        MetaTranscript record)].
Proof.
  intros s o record.
  destruct (only_sent_final_transcripts_are_batched "2025-01-01T00:00:05" true
              "hi there" true "Speaker 1" Example.flush_ok s)
    as (_ & _ & _ & Hstored).
  exact (Hstored eq_refl eq_refl eq_refl).
Defined.

End TranscriptFacts.

(** ** The timer loop *)

Module TimerFacts.
Import BatcherFacts.

#[local] Arguments speaker_str : simpl never.
#[local] Arguments String.concat : simpl never.
#[local] Arguments String.substring : simpl never.
#[local] Arguments String.append : simpl never.
#[local] Arguments last : simpl never.
#[local] Arguments combined_caption : simpl never.
#[local] Arguments combined_transcript : simpl never.
#[local] Arguments last_clip : simpl never.
#[local] Arguments Mem0Manager.store_transcript : simpl never.
#[local] Arguments Mem0Manager.store_caption_with_clip : simpl never.
#[local] Arguments mem0_adds : simpl never.
#[local] Arguments transcript_add : simpl never.
#[local] Arguments caption_add : simpl never.

Lemma tick_with_client (a : flush_answers) (s : Session) :
  Mem0Manager._client (mem0_manager s) = true →
  ∃ st evs,
    mem0_batch_tick a s = Returns st Continue evs ∧
    mem0_adds evs
      = transcript_add (session_id s) (transcript_batch s)
          ++ caption_add (caption_batch s) ∧
    transcript_batch st = [] ∧ caption_batch st = [] ∧
    mem0_manager st = mem0_manager s.
Proof.
  intros Hcl.
  destruct (tick_adds a s) as (Ht & Hc & _ & Hready).
  destruct (Hready Hcl) as [Hadds Hr]. clear Hready.
  assert (mem0_manager (state_of (mem0_batch_tick a s)) = mem0_manager s
          ∧ value_of (mem0_batch_tick a s) = Some Continue) as [Hm Hv].
  { clear Ht Hc Hadds. revert Hr Hcl. unfold mem0_batch_tick, mem0.
    destruct s as [sid aq iq uq tb cb c1 c2 c3 c4 enc meta dc dr
                   s3m m0 md cfg mc cc].
    destruct tb as [|tr tb]; destruct cb as [|c cb]; run_goal; try done.
    - intros Hr Hcl.
      pose proof (store_caption_with_clip_spec cfg (caption_store a)
                    (combined_caption c (c :: cb)) (last_clip c (c :: cb)) m0)
        as (Hc1 & _ & _). destruct (Hc1 Hcl) as (Hs & _ & _).
      revert Hr Hs.
      by destruct (Mem0Manager.store_caption_with_clip _ _ _ _ m0); run_goal.
    - intros Hr Hcl.
      pose proof (store_transcript_spec cfg (transcript_store a)
                    (combined_transcript sid tr (tr :: tb)) m0)
        as (Hc1 & _ & _). destruct (Hc1 Hcl) as (Hs & _ & _).
      revert Hr Hs.
      by destruct (Mem0Manager.store_transcript _ _ _ m0); run_goal.
    - intros Hr Hcl.
      pose proof (store_transcript_spec cfg (transcript_store a)
                    (combined_transcript sid tr (tr :: tb)) m0)
        as (Hc1 & _ & _). destruct (Hc1 Hcl) as (Hs & _ & _).
      revert Hr Hs.
      destruct (Mem0Manager.store_transcript _ _ _ m0) as [m1 ? ?|];
        run_goal; [|done]. intros Hr ->.
      pose proof (store_caption_with_clip_spec cfg (caption_store a)
                    (combined_caption c (c :: cb)) (last_clip c (c :: cb)) m0)
        as (Hd1 & _ & _). destruct (Hd1 Hcl) as (Hs & _ & _).
      revert Hr Hs.
      by destruct (Mem0Manager.store_caption_with_clip _ _ _ _ m0); run_goal. }
  destruct (mem0_batch_tick a s) as [st v evs|]; [|done].
  cbn in *. injection Hv as ->. by eexists _, _.
Qed.

#[local] Arguments mem0_batch_tick : simpl never.

Lemma ticks_idle (envs : list flush_answers) (s : Session) :
  Mem0Manager._client (mem0_manager s) = true →
  transcript_batch s = [] → caption_batch s = [] →
  let o := mem0_batch_processor envs s in
  value_of o = Some Waiting ∧ mem0_adds (events_of o) = [] ∧
  transcript_batch (state_of o) = [] ∧ caption_batch (state_of o) = [].
Proof.
  revert s. induction envs as [|a envs IH]; intros s Hcl Ht Hc; [done|].
  unfold mem0_batch_processor in *. cbn [loop].
  destruct (tick_with_client a s Hcl) as (st & evs & Htick & Hadds & Ht' & Hc' & Hm).
  unfold mbind, M_bind. rewrite Htick.
  rewrite Ht, Hc in Hadds. cbn in Hadds.
  rewrite <- Hm in Hcl. specialize (IH st Hcl Ht' Hc').
  destruct (loop mem0_batch_tick envs st) as [s2 v2 evs2|]; cbn in *; [|by destruct IH].
  destruct IH as (? & Ha2 & ? & ?).
  by rewrite mem0_adds_app, Hadds, Ha2.
Qed.

(** X20.  With a Mem0 client at hand the timer loop stores what is
    batched exactly once, however many times it fires afterwards: the
    [client.add] calls of any number of timer flushes, one at least, are
    those of the first one, the later ones finding empty batches. *)
Theorem timer_stores_each_batch_once (a : flush_answers)
    (envs : list flush_answers) (s : Session) :
  Mem0Manager._client (mem0_manager s) = true →
  let o := mem0_batch_processor (a :: envs) s in
  value_of o = Some Waiting ∧
  mem0_adds (events_of o)
    = transcript_add (session_id s) (transcript_batch s)
        ++ caption_add (caption_batch s) ∧
  mem0_adds (events_of o) = mem0_adds (events_of (mem0_batch_tick a s)) ∧
  transcript_batch (state_of o) = [] ∧ caption_batch (state_of o) = [].
Proof.
  intros Hcl o. subst o. unfold mem0_batch_processor. cbn [loop].
  destruct (tick_with_client a s Hcl) as (st & evs & Htick & Hadds & Ht' & Hc' & Hm).
  unfold mbind, M_bind. rewrite Htick. cbn [events_of].
  rewrite <- Hm in Hcl.
  destruct (ticks_idle envs st Hcl Ht' Hc') as (Hv & Ha & Ht2 & Hc2).
  unfold mem0_batch_processor in *.
  destruct (loop mem0_batch_tick envs st) as [s2 v2 evs2|]; cbn in *; [|done].
  by rewrite mem0_adds_app, Hadds, Ha, !app_nil_r.
Qed.

Lemma timer_stores_each_batch_once_witness :
  let s := set_transcript_batch [Example.utterance "Speaker 0" "hello"]
             Example.session in
  let o := mem0_batch_processor
             [Example.flush_ok; Example.flush_ok; Example.flush_ok] s in
  value_of o = Some Waiting ∧
  mem0_adds (events_of o)
    = [("At 2025-01-01T00:00:00, Speaker 0 said: hello",
        MetaTranscript (Example.utterance "Speaker 0" "hello"))] ∧
  transcript_batch (state_of o) = [].
Proof.
  intros s o.
  destruct (timer_stores_each_batch_once Example.flush_ok
              [Example.flush_ok; Example.flush_ok] s eq_refl)
    as (Hv & Ha & _ & Ht & _).
  split; [exact Hv|]. split; [exact Ha|exact Ht].
Defined.

End TimerFacts.
